(** * HaruChat: the chat proxy and streaming relay of [haruServer/main.py]

    A shallow embedding of the request translation, the single-shot response
    parsing and the two streaming relays ([call_gemini], [stream_gemini],
    [call_openai], [stream_openai], [chat], [chat_stream]), followed by the
    properties of the relay core.

    Conventions of the embedding.
    - A Python [str] is a [string] holding its UTF-8 encoding; [bytes] is a
      [list Byte.byte].  Slicing off an ASCII prefix and comparing with ASCII
      literals coincide on both views.
    - A decoded JSON document is a [json] value; a Python [dict] is an
      association list in insertion order, read by its first binding.
    - Python exceptions are values of [exn]; an async generator is a trace of
      effects (the frames it yields and the upstream requests it sends)
      together with the way it ended, so that frames yielded before an
      exception stay in the trace.
    - [json.loads] and [json.dumps] belong to the Python library: they are
      parameters of the development, as are the configuration read from the
      process environment and the upstream server. *)

From Stdlib Require Import String Ascii List ZArith NArith Lia Bool.
From Stdlib Require Import SpecFloat DecimalString.
From Stdlib.Strings Require Byte.
Import ListNotations.
Local Open Scope list_scope.
Local Open Scope string_scope.

Set Implicit Arguments.
Set Warnings "-register-all".

(** ** Characters that a Rocq literal cannot spell directly *)

Definition dq : string := String "034"%char EmptyString.
Definition nl : string := String "010"%char EmptyString.
Definition backslash : ascii := "092"%char.

(** [q s] is [s] between double quotes. *)
Definition q (s : string) : string := dq ++ s ++ dq.

(** ** JSON documents as Python objects *)

Inductive json : Type :=
| JNull
| JBool (b : bool)
| JInt (n : Z)
| JFloat (f : spec_float)
| JStr (s : string)
| JArr (items : list json)
| JObj (members : list (string * json)).

Inductive exn : Type :=
| TypeError
| KeyError
| IndexError
| AttributeError
| JSONDecodeError
| RecursionError
| ValueError
| UnicodeDecodeError
| ValidationError
| HTTPException (status_code : Z) (detail : string).

Inductive result (A : Type) : Type :=
| Ok (a : A)
| Raise (e : exn).
Arguments Ok {A} a.
Arguments Raise {A} e.

(** ** UTF-8, as [bytes.decode()] checks it and as [str] indexing sees it *)

Module Utf8.

Definition between (lo hi b : N) : bool := ((lo <=? b) && (b <=? hi))%N.

Definition is_cont (b : N) : bool := between 128 191 b.

(** Second byte of a three-byte sequence: no overlong form, no surrogate. *)
Definition second3 (b0 b1 : N) : bool :=
  if (b0 =? 224)%N then between 160 191 b1
  else if (b0 =? 237)%N then between 128 159 b1
  else is_cont b1.

(** Second byte of a four-byte sequence: no overlong form, at most U+10FFFF. *)
Definition second4 (b0 b1 : N) : bool :=
  if (b0 =? 240)%N then between 144 191 b1
  else if (b0 =? 244)%N then between 128 143 b1
  else is_cont b1.

Fixpoint valid (bs : list N) : bool :=
  match bs with
  | [] => true
  | b0 :: r0 =>
    if (b0 <? 128)%N then valid r0
    else
      match r0 with
      | [] => false
      | b1 :: r1 =>
        if between 194 223 b0 then is_cont b1 && valid r1
        else
          match r1 with
          | [] => false
          | b2 :: r2 =>
            if between 224 239 b0 then second3 b0 b1 && is_cont b2 && valid r2
            else
              match r2 with
              | [] => false
              | b3 :: r3 =>
                if between 240 244 b0
                then second4 b0 b1 && is_cont b2 && is_cont b3 && valid r3
                else false
              end
          end
      end
  end.

(** [error_text.decode()]: strict UTF-8, [UnicodeDecodeError] otherwise. *)
Definition decode (bs : list Byte.byte) : result string :=
  if valid (map Byte.to_N bs) then Ok (string_of_list_byte bs)
  else Raise UnicodeDecodeError.

Definition cont_char (c : ascii) : bool := is_cont (N_of_ascii c).

Definition starts_with_cont (s : string) : bool :=
  match s with
  | EmptyString => false
  | String c _ => cont_char c
  end.

(** The characters of a [str]: every lead byte with the continuation bytes
    that follow it. *)
Fixpoint chars (s : string) : list string :=
  match s with
  | EmptyString => []
  | String c rest =>
    match starts_with_cont rest, chars rest with
    | true, x :: xs => String c x :: xs
    | _, r => String c EmptyString :: r
    end
  end.

End Utf8.

(** ** The Python operations the handlers apply to decoded JSON *)

Module Py.

Fixpoint assoc (k : string) (m : list (string * json)) : option json :=
  match m with
  | [] => None
  | (k', v) :: m' => if String.eqb k k' then Some v else assoc k m'
  end.

(** [needle in hay] on two [str]: substring test. *)
Fixpoint str_contains (needle hay : string) : bool :=
  String.prefix needle hay ||
  match hay with
  | EmptyString => false
  | String _ hay' => str_contains needle hay'
  end.

Definition is_str (k : string) (v : json) : bool :=
  match v with
  | JStr s => String.eqb s k
  | _ => false
  end.

(** [bool(v)]. *)
Definition truthy (v : json) : bool :=
  match v with
  | JNull => false
  | JBool b => b
  | JInt n => negb (n =? 0)%Z
  | JFloat (S754_zero _) => false
  | JFloat _ => true
  | JStr s => negb (String.eqb s "")
  | JArr [] => false
  | JArr (_ :: _) => true
  | JObj [] => false
  | JObj (_ :: _) => true
  end.

(** [k in v] for a [str] key [k]. *)
Definition contains (k : string) (v : json) : result bool :=
  match v with
  | JObj m => Ok (match assoc k m with Some _ => true | None => false end)
  | JArr l => Ok (existsb (is_str k) l)
  | JStr s => Ok (str_contains k s)
  | _ => Raise TypeError
  end.

(** [v[k]] for a [str] key [k]. *)
Definition getitem (v : json) (k : string) : result json :=
  match v with
  | JObj m => match assoc k m with Some x => Ok x | None => Raise KeyError end
  | _ => Raise TypeError
  end.

(** [v[0]]. A [dict] decoded from JSON has only [str] keys. *)
Definition getitem0 (v : json) : result json :=
  match v with
  | JArr (x :: _) => Ok x
  | JArr [] => Raise IndexError
  | JStr s =>
    match Utf8.chars s with
    | c :: _ => Ok (JStr c)
    | [] => Raise IndexError
    end
  | JObj _ => Raise KeyError
  | _ => Raise TypeError
  end.

(** [v.get(k, default)]: only a [dict] has the method. *)
Definition get (v : json) (k : string) (default : json) : result json :=
  match v with
  | JObj m => Ok (match assoc k m with Some x => x | None => default end)
  | _ => Raise AttributeError
  end.

(** The items [for x in v] visits. *)
Definition iter (v : json) : result (list json) :=
  match v with
  | JArr l => Ok l
  | JObj m => Ok (map (fun kv => JStr (fst kv)) m)
  | JStr s => Ok (map JStr (Utf8.chars s))
  | _ => Raise TypeError
  end.

(** [a + b] where [a] is a [str]. *)
Definition str_add (a : string) (b : json) : result string :=
  match b with
  | JStr s => Ok (a ++ s)
  | _ => Raise TypeError
  end.

Definition lower_char (c : ascii) : ascii :=
  let n := N_of_ascii c in
  if ((65 <=? n) && (n <=? 90))%N then ascii_of_N (n + 32) else c.

(** [s.lower()] on the ASCII letters.  Python also maps cased letters
    outside ASCII, never to a string of the letters of [gemini] or
    [openai], so the two comparisons made on the result agree. *)
Fixpoint lower (s : string) : string :=
  match s with
  | EmptyString => EmptyString
  | String c s' => String (lower_char c) (lower s')
  end.

(** [line.startswith(p)] and [line[n:]]. *)
Definition startswith (p line : string) : bool := String.prefix p line.

Fixpoint drop (n : nat) (s : string) : string :=
  match n, s with
  | O, _ => s
  | S n', String _ s' => drop n' s'
  | S _, EmptyString => EmptyString
  end.

End Py.

(** ** Data model *)

Module Config.
(** The class attributes of [Config], read from the environment at import. *)
Record t : Type := {
  GEMINI_API_KEY : string;
  GEMINI_BASE_URL : string;
  OPENAI_API_KEY : string;
  OPENAI_BASE_URL : string
}.
Definition DEFAULT_GEMINI_MODEL : string := "gemini-2.5-flash".
Definition DEFAULT_OPENAI_MODEL : string := "gpt-4o".
End Config.

Module Message.
Record t : Type := { role : string; content : string }.
End Message.

Module ChatRequest.
Record t : Type := {
  provider : string;
  model : option string;
  messages : list Message.t;
  temperature : spec_float;
  max_tokens : Z;
  stream : bool;
  enable_search : bool;
  include_thoughts : bool
}.
End ChatRequest.

Module ChatResponse.
Record t : Type := {
  content : string;
  thinking_content : option string;
  usage : option json
}.
End ChatResponse.

(** What the handlers hand to [httpx] and what they read from its response. *)
Module Http.
Record request : Type := {
  streaming : bool;
  url : string;
  headers : list (string * string);
  body : json
}.
Record response : Type := {
  status_code : Z;
  text : string;              (* response.text *)
  json_ : result json;        (* response.json() *)
  aread : list Byte.byte;     (* await response.aread() *)
  aiter_lines : list string   (* response.aiter_lines() *)
}.
End Http.

(** ** Generators and handlers as traces *)

Inductive effect : Type :=
| Yield (frame : string)
| Send (r : Http.request).

Definition M (A : Type) : Type := (list effect * result A)%type.

Definition ret {A : Type} (a : A) : M A := ([], Ok a).

Definition bind {A B : Type} (m : M A) (k : A -> M B) : M B :=
  match m with
  | (t, Ok a) => let (t', r) := k a in ((t ++ t')%list, r)
  | (t, Raise e) => (t, Raise e)
  end.

Definition lift {A : Type} (r : result A) : M A := ([], r).
Definition raise {A : Type} (e : exn) : M A := ([], Raise e).
Definition yield (frame : string) : M unit := ([Yield frame], Ok tt).

Declare Scope py_scope.
Delimit Scope py_scope with py.
Notation "x <- m ;; k" := (bind m (fun x => k))
  (at level 61, m at next level, right associativity) : py_scope.
Notation "m ;; k" := (bind m (fun _ => k))
  (at level 61, right associativity) : py_scope.
Local Open Scope py_scope.

(** Sequencing inside plain expressions, which yield and send nothing. *)
Definition and_then {A B : Type} (r : result A) (k : A -> result B) : result B :=
  match r with
  | Ok a => k a
  | Raise e => Raise e
  end.
Notation "x <-? r ;; k" := (and_then r (fun x => k))
  (at level 61, r at next level, right associativity) : py_scope.

(** [for x in l: body]. *)
Fixpoint for_each {A : Type} (body : A -> M unit) (l : list A) : M unit :=
  match l with
  | [] => ret tt
  | x :: l' => body x ;; for_each body l'
  end.

(** [try: m  except json.JSONDecodeError: pass]. *)
Definition except_JSONDecodeError_pass (m : M unit) : M unit :=
  match m with
  | (t, Raise JSONDecodeError) => (t, Ok tt)
  | _ => m
  end.

(** The frames of a trace, in the order they were yielded. *)
Fixpoint frames (t : list effect) : list string :=
  match t with
  | [] => []
  | Yield f :: t' => f :: frames t'
  | Send _ :: t' => frames t'
  end.

(** The upstream requests of a trace. *)
Fixpoint requests (t : list effect) : list Http.request :=
  match t with
  | [] => []
  | Send r :: t' => r :: requests t'
  | Yield _ :: t' => requests t'
  end.

(** [request.model or default]. *)
Definition model_or (m : option string) (default : string) : string :=
  match m with
  | Some s => if String.eqb s "" then default else s
  | None => default
  end.

(** [thinking_content or ""]. *)
Definition or_empty (s : option string) : string :=
  match s with
  | Some x => x
  | None => ""
  end.

(** The outward frames, by kind. *)
Inductive event : Type :=
| Content (text : json)
| Thinking (text : json)
| Usage (prompt_tokens completion_tokens total_tokens : json)
| Error (message : string)
| Done.

Definition usage_dict (p c t : json) : json :=
  JObj [("prompt_tokens", p); ("completion_tokens", c); ("total_tokens", t)].

(** ** The handlers of [main.py] *)

Section Server.

(** [json.loads]: the document of a text, or the exception the call ends
    with: [json.JSONDecodeError] for a text that is no JSON document, but
    also [RecursionError] for one nested too deep and [ValueError] for an
    integer of more digits than the interpreter converts. *)
Variable json_loads : string -> result json.
(** [json.dumps]. *)
Variable json_dumps : json -> string.
Variable config : Config.t.
(** The provider: the response [httpx] obtains for a request. *)
Variable upstream : Http.request -> Http.response.

Definition loads (s : string) : result json := json_loads s.

(** [client.post(...)] and [client.stream("POST", ...)], for a call that
    obtains a response. *)
Definition send (r : Http.request) : M Http.response :=
  ([Send r], Ok (upstream r)).

(** The f-strings that build the outward frames. *)
Definition frame (e : event) : string :=
  match e with
  | Content text =>
    "data: {" ++ q "type" ++ ": " ++ q "content" ++ ", " ++ q "data" ++ ": "
      ++ json_dumps text ++ "}" ++ nl ++ nl
  | Thinking text =>
    "data: {" ++ q "type" ++ ": " ++ q "thinking" ++ ", " ++ q "data" ++ ": "
      ++ json_dumps text ++ "}" ++ nl ++ nl
  | Usage p c t =>
    "data: {" ++ q "type" ++ ": " ++ q "usage" ++ ", " ++ q "usage" ++ ": "
      ++ json_dumps (usage_dict p c t) ++ "}" ++ nl ++ nl
  | Error message =>
    "data: {" ++ q "error" ++ ": " ++ dq ++ message ++ dq ++ "}" ++ nl ++ nl
  | Done =>
    "data: {" ++ q "type" ++ ": " ++ q "done" ++ "}" ++ nl ++ nl
  end.

Definition emit (e : event) : M unit := yield (frame e).

(** *** Gemini *)

Definition gemini_role (role : string) : string :=
  if String.eqb role "user" then "user" else "model".

Definition gemini_content (msg : Message.t) : json :=
  JObj [("role", JStr (gemini_role (Message.role msg)));
        ("parts", JArr [JObj [("text", JStr (Message.content msg))]])].

(** [contents = []; for msg in request.messages: contents.append(...)]. *)
Definition gemini_contents (msgs : list Message.t) : list json :=
  fold_left (fun contents msg => (contents ++ [gemini_content msg])%list) msgs [].

Definition gemini_body (request : ChatRequest.t) : json :=
  JObj ([("contents", JArr (gemini_contents (ChatRequest.messages request)));
         ("generationConfig",
          JObj [("temperature", JFloat (ChatRequest.temperature request));
                ("maxOutputTokens", JInt (ChatRequest.max_tokens request))])]
        ++ (if ChatRequest.enable_search request
            then [("tools", JArr [JObj [("google_search", JObj [])]])] else [])
        ++ (if ChatRequest.include_thoughts request
            then [("thinkingConfig", JObj [("includeThoughts", JBool true)])]
            else []))%list.

Definition gemini_url (request : ChatRequest.t) (operation : string) : string :=
  Config.GEMINI_BASE_URL config ++ "/models/"
    ++ model_or (ChatRequest.model request) Config.DEFAULT_GEMINI_MODEL
    ++ operation ++ "key=" ++ Config.GEMINI_API_KEY config.

Definition gemini_request (request : ChatRequest.t) : Http.request :=
  {| Http.streaming := false;
     Http.url := gemini_url request ":generateContent?";
     Http.headers := [];
     Http.body := gemini_body request |}.

Definition gemini_stream_request (request : ChatRequest.t) : Http.request :=
  {| Http.streaming := true;
     Http.url := gemini_url request ":streamGenerateContent?alt=sse&";
     Http.headers := [];
     Http.body := gemini_body request |}.

(** One turn of the loop over [candidate["content"]["parts"]] in
    [call_gemini], on the pair [(content, thinking_content)]. *)
Definition gemini_collect_part (acc : string * option string) (part : json)
  : result (string * option string) :=
  let (content, thinking_content) := acc in
  thought <-? Py.get part "thought" JNull ;;
  if Py.truthy thought then
    text <-? Py.get part "text" (JStr "") ;;
    s <-? Py.str_add (or_empty thinking_content) text ;;
    Ok (content, Some s)
  else
    text <-? Py.get part "text" (JStr "") ;;
    s <-? Py.str_add content text ;;
    Ok (s, thinking_content).

Fixpoint gemini_collect (parts : list json) (acc : string * option string)
  : result (string * option string) :=
  match parts with
  | [] => Ok acc
  | part :: parts' =>
    acc' <-? gemini_collect_part acc part ;;
    gemini_collect parts' acc'
  end.

(** The three [.get(..., 0)] that build a usage dict. *)
Definition usage_of (meta : json) (kp kc kt : string) : result (json * json * json) :=
  p <-? Py.get meta kp (JInt 0) ;;
  c <-? Py.get meta kc (JInt 0) ;;
  t <-? Py.get meta kt (JInt 0) ;;
  Ok (p, c, t).

Definition gemini_usage (meta : json) : result (json * json * json) :=
  usage_of meta "promptTokenCount" "candidatesTokenCount" "totalTokenCount".

(** [call_gemini] from [data = response.json()] on: the walk down to the
    parts, the usage dict, the response object. *)
Definition gemini_parse_parts (data : json) : result (string * option string) :=
  has <-? Py.contains "candidates" data ;;
  if has then
    candidates <-? Py.getitem data "candidates" ;;
    if Py.truthy candidates then
      candidate <-? Py.getitem0 candidates ;;
      has_content <-? Py.contains "content" candidate ;;
      if has_content then
        content <-? Py.getitem candidate "content" ;;
        has_parts <-? Py.contains "parts" content ;;
        if has_parts then
          parts <-? Py.getitem content "parts" ;;
          items <-? Py.iter parts ;;
          gemini_collect items ("", None)
        else Ok ("", None)
      else Ok ("", None)
    else Ok ("", None)
  else Ok ("", None).

Definition gemini_parse_usage (data : json) : result (option json) :=
  has <-? Py.contains "usageMetadata" data ;;
  if has then
    meta <-? Py.getitem data "usageMetadata" ;;
    u <-? gemini_usage meta ;;
    let '(p, c, t) := u in Ok (Some (usage_dict p c t))
  else Ok None.

Definition gemini_parse (data : json) : result ChatResponse.t :=
  acc <-? gemini_parse_parts data ;;
  usage <-? gemini_parse_usage data ;;
  Ok {| ChatResponse.content := fst acc;
        ChatResponse.thinking_content := snd acc;
        ChatResponse.usage := usage |}.

Definition call_gemini (request : ChatRequest.t) : M ChatResponse.t :=
  response <- send (gemini_request request) ;;
  if negb (Http.status_code response =? 200)%Z then
    raise (HTTPException (Http.status_code response) (Http.text response))
  else
    data <- lift (Http.json_ response) ;;
    lift (gemini_parse data).

(** The body of the loop over the parts in [stream_gemini]. *)
Definition gemini_stream_part (part : json) : M unit :=
  text <- lift (Py.get part "text" (JStr "")) ;;
  is_thought <- lift (Py.get part "thought" (JBool false)) ;;
  if Py.truthy text
  then emit (if Py.truthy is_thought then Thinking text else Content text)
  else ret tt.

(** The body of the [try] in [stream_gemini], after [json.loads]: the walk
    over the parts, then the usage frame. *)
Definition gemini_chunk_parts (chunk : json) : M unit :=
  has <- lift (Py.contains "candidates" chunk) ;;
  if has then
    candidates <- lift (Py.getitem chunk "candidates") ;;
    if Py.truthy candidates then
      candidate <- lift (Py.getitem0 candidates) ;;
      has_content <- lift (Py.contains "content" candidate) ;;
      if has_content then
        content <- lift (Py.getitem candidate "content") ;;
        has_parts <- lift (Py.contains "parts" content) ;;
        if has_parts then
          parts <- lift (Py.getitem content "parts") ;;
          items <- lift (Py.iter parts) ;;
          for_each gemini_stream_part items
        else ret tt
      else ret tt
    else ret tt
  else ret tt.

Definition gemini_chunk_usage (chunk : json) : M unit :=
  has_usage <- lift (Py.contains "usageMetadata" chunk) ;;
  if has_usage then
    meta <- lift (Py.getitem chunk "usageMetadata") ;;
    u <- lift (gemini_usage meta) ;;
    let '(p, c, t) := u in emit (Usage p c t)
  else ret tt.

Definition gemini_chunk (chunk : json) : M unit :=
  gemini_chunk_parts chunk ;;
  gemini_chunk_usage chunk.

Definition gemini_line (line : string) : M unit :=
  if Py.startswith "data: " line then
    let json_str := Py.drop 6 line in
    except_JSONDecodeError_pass
      (chunk <- lift (loads json_str) ;; gemini_chunk chunk)
  else ret tt.

Definition stream_gemini (request : ChatRequest.t) : M unit :=
  response <- send (gemini_stream_request request) ;;
  if negb (Http.status_code response =? 200)%Z then
    error_text <- lift (Utf8.decode (Http.aread response)) ;;
    emit (Error error_text)
  else
    for_each gemini_line (Http.aiter_lines response) ;;
    emit Done.

(** *** OpenAI *)

Definition openai_role (role : string) : string :=
  if negb (String.eqb role "model") then role else "assistant".

Definition openai_message (msg : Message.t) : json :=
  JObj [("role", JStr (openai_role (Message.role msg)));
        ("content", JStr (Message.content msg))].

Definition openai_messages (msgs : list Message.t) : list json :=
  fold_left (fun messages msg => (messages ++ [openai_message msg])%list) msgs [].

Definition openai_body (request : ChatRequest.t) (streaming : bool) : json :=
  JObj ([("model", JStr (model_or (ChatRequest.model request)
                                  Config.DEFAULT_OPENAI_MODEL));
         ("messages", JArr (openai_messages (ChatRequest.messages request)));
         ("temperature", JFloat (ChatRequest.temperature request));
         ("max_tokens", JInt (ChatRequest.max_tokens request))]
        ++ (if streaming then [("stream", JBool true)] else []))%list.

Definition openai_request (request : ChatRequest.t) (streaming : bool) : Http.request :=
  {| Http.streaming := streaming;
     Http.url := Config.OPENAI_BASE_URL config ++ "/chat/completions";
     Http.headers := [("Authorization", "Bearer " ++ Config.OPENAI_API_KEY config);
                      ("Content-Type", "application/json")];
     Http.body := openai_body request streaming |}.

Definition openai_usage (meta : json) : result (json * json * json) :=
  usage_of meta "prompt_tokens" "completion_tokens" "total_tokens".

(** [ChatResponse(content=...)]: the field is declared [str]. *)
Definition validate_str (v : json) : result string :=
  match v with
  | JStr s => Ok s
  | _ => Raise ValidationError
  end.

(** [call_openai] from [data = response.json()] on. *)
Definition openai_parse (data : json) : result ChatResponse.t :=
  content <-? (has <-? Py.contains "choices" data ;;
               if has then
                 choices <-? Py.getitem data "choices" ;;
                 if Py.truthy choices then
                   choice <-? Py.getitem0 choices ;;
                   message <-? Py.get choice "message" (JObj []) ;;
                   Py.get message "content" (JStr "")
                 else Ok (JStr "")
               else Ok (JStr "")) ;;
  usage <-? (has <-? Py.contains "usage" data ;;
             if has then
               meta <-? Py.getitem data "usage" ;;
               u <-? openai_usage meta ;;
               let '(p, c, t) := u in Ok (Some (usage_dict p c t))
             else Ok None) ;;
  s <-? validate_str content ;;
  Ok {| ChatResponse.content := s;
        ChatResponse.thinking_content := None;
        ChatResponse.usage := usage |}.

Definition call_openai (request : ChatRequest.t) : M ChatResponse.t :=
  response <- send (openai_request request false) ;;
  if negb (Http.status_code response =? 200)%Z then
    raise (HTTPException (Http.status_code response) (Http.text response))
  else
    data <- lift (Http.json_ response) ;;
    lift (openai_parse data).

(** The body of the [try] in [stream_openai], after [json.loads]. *)
Definition openai_chunk (chunk : json) : M unit :=
  has <- lift (Py.contains "choices" chunk) ;;
  if has then
    choices <- lift (Py.getitem chunk "choices") ;;
    if Py.truthy choices then
      choice <- lift (Py.getitem0 choices) ;;
      delta <- lift (Py.get choice "delta" (JObj [])) ;;
      text <- lift (Py.get delta "content" (JStr "")) ;;
      if Py.truthy text then emit (Content text) else ret tt
    else ret tt
  else ret tt.

Inductive flow : Type := Next | Break.

Definition openai_line (line : string) : M flow :=
  if Py.startswith "data: " line then
    let json_str := Py.drop 6 line in
    if String.eqb json_str "[DONE]" then ret Break
    else
      except_JSONDecodeError_pass
        (chunk <- lift (loads json_str) ;; openai_chunk chunk) ;;
      ret Next
  else ret Next.

(** The loop over [response.aiter_lines()]; its value is the part of the
    response that was not read. *)
Fixpoint openai_lines (lines : list string) : M (list string) :=
  match lines with
  | [] => ret []
  | line :: rest =>
    f <- openai_line line ;;
    match f with
    | Break => ret rest
    | Next => openai_lines rest
    end
  end.

Definition stream_openai (request : ChatRequest.t) : M unit :=
  response <- send (openai_request request true) ;;
  if negb (Http.status_code response =? 200)%Z then
    error_text <- lift (Utf8.decode (Http.aread response)) ;;
    emit (Error error_text)
  else
    openai_lines (Http.aiter_lines response) ;;
    emit Done.

(** *** The public routes *)

Definition gemini_key_missing : string := "Gemini API Key 未配置".
Definition openai_key_missing : string := "OpenAI API Key 未配置".
Definition unsupported (provider : string) : string := "不支持的供应商: " ++ provider.

(** [POST /api/chat]. *)
Definition chat (request : ChatRequest.t) : M ChatResponse.t :=
  let provider := Py.lower (ChatRequest.provider request) in
  if String.eqb provider "gemini" then
    if String.eqb (Config.GEMINI_API_KEY config) "" then
      raise (HTTPException 500 gemini_key_missing)
    else call_gemini request
  else if String.eqb provider "openai" then
    if String.eqb (Config.OPENAI_API_KEY config) "" then
      raise (HTTPException 500 openai_key_missing)
    else call_openai request
  else raise (HTTPException 400 (unsupported (ChatRequest.provider request))).

(** The two literal frames of [generate]. *)
Definition gemini_key_missing_frame : string :=
  "data: {" ++ dq ++ "error" ++ dq ++ ": " ++ dq ++ "Gemini API Key 未配置" ++ dq
    ++ "}" ++ nl ++ nl.
Definition openai_key_missing_frame : string :=
  "data: {" ++ dq ++ "error" ++ dq ++ ": " ++ dq ++ "OpenAI API Key 未配置" ++ dq
    ++ "}" ++ nl ++ nl.

(** [POST /api/chat/stream]: the generator handed to [StreamingResponse]. *)
Definition chat_stream (request : ChatRequest.t) : M unit :=
  let provider := Py.lower (ChatRequest.provider request) in
  if String.eqb provider "gemini" then
    if String.eqb (Config.GEMINI_API_KEY config) "" then
      yield gemini_key_missing_frame
    else stream_gemini request
  else if String.eqb provider "openai" then
    if String.eqb (Config.OPENAI_API_KEY config) "" then
      yield openai_key_missing_frame
    else stream_openai request
  else emit (Error (unsupported (ChatRequest.provider request))).

End Server.

(** ** Provider documents as the spec reads them

    The handlers walk a decoded document with [in], [[...]] and [.get]; the
    spec speaks of the parts of a chunk, of their text and thought flag, and
    of usage metadata.  The definitions below are that reading: what a
    document of the provider's shape holds, independently of how the handlers
    get at it. *)

Definition field (k : string) (v : json) : option json :=
  match v with
  | JObj m => Py.assoc k m
  | _ => None
  end.

Definition field_or (k : string) (default v : json) : json :=
  match field k v with
  | Some x => x
  | None => default
  end.

Definition is_obj (v : json) : bool :=
  match v with
  | JObj _ => true
  | _ => false
  end.

Definition is_string (v : json) : bool :=
  match v with
  | JStr _ => true
  | _ => false
  end.

Definition absent_or (p : json -> bool) (o : option json) : bool :=
  match o with
  | Some v => p v
  | None => true
  end.

(** A part is an object whose [text], when present, is a string. *)
Definition part_shaped (part : json) : bool :=
  is_obj part && absent_or is_string (field "text" part).

Definition parts_shaped (v : json) : bool :=
  match v with
  | JArr l => forallb part_shaped l
  | _ => false
  end.

Definition content_shaped (v : json) : bool :=
  is_obj v && absent_or parts_shaped (field "parts" v).

Definition candidate_shaped (v : json) : bool :=
  is_obj v && absent_or content_shaped (field "content" v).

(** Only the first candidate is ever read. *)
Definition candidates_shaped (v : json) : bool :=
  match v with
  | JArr [] => true
  | JArr (c :: _) => candidate_shaped c
  | _ => false
  end.

(** A Gemini response or stream chunk: an object whose [candidates], when
    present, is an array led by a candidate of the shape above, and whose
    [usageMetadata], when present, is an object. *)
Definition gemini_shaped (data : json) : bool :=
  is_obj data
  && absent_or candidates_shaped (field "candidates" data)
  && absent_or is_obj (field "usageMetadata" data).

(** [candidates[0].content.parts], empty when any step is missing. *)
Definition gemini_parts (data : json) : list json :=
  match field "candidates" data with
  | Some (JArr (candidate :: _)) =>
    match field "content" candidate with
    | Some content =>
      match field "parts" content with
      | Some (JArr parts) => parts
      | _ => []
      end
    | None => []
    end
  | _ => []
  end.

Definition part_text (part : json) : string :=
  match field "text" part with
  | Some (JStr s) => s
  | _ => ""
  end.

Definition part_thought (part : json) : bool :=
  match field "thought" part with
  | Some flag => Py.truthy flag
  | None => false
  end.

(** The result the spec describes for [parseSingleResponse] on Gemini. *)
Definition spec_content (data : json) : string :=
  String.concat "" (map part_text (filter (fun p => negb (part_thought p)) (gemini_parts data))).

Definition spec_thinking_content (data : json) : option string :=
  if existsb part_thought (gemini_parts data)
  then Some (String.concat "" (map part_text (filter part_thought (gemini_parts data))))
  else None.

Definition spec_usage (kp kc kt : string) (meta : json) : json :=
  usage_dict (field_or kp (JInt 0) meta) (field_or kc (JInt 0) meta)
             (field_or kt (JInt 0) meta).

Definition spec_gemini_usage (data : json) : option json :=
  option_map (spec_usage "promptTokenCount" "candidatesTokenCount" "totalTokenCount")
             (field "usageMetadata" data).

(** The events the spec describes for one part of a Gemini chunk: nothing
    for an empty text, else one event whose kind follows the thought flag. *)
Definition part_events (part : json) : list event :=
  let text := field_or "text" (JStr "") part in
  if Py.truthy text
  then [if part_thought part then Thinking text else Content text]
  else [].

(** ... and for its usage metadata. *)
Definition usage_events (chunk : json) : list event :=
  match field "usageMetadata" chunk with
  | Some meta =>
    [Usage (field_or "promptTokenCount" (JInt 0) meta)
           (field_or "candidatesTokenCount" (JInt 0) meta)
           (field_or "totalTokenCount" (JInt 0) meta)]
  | None => []
  end.

Definition gemini_chunk_events (chunk : json) : list event :=
  (flat_map part_events (gemini_parts chunk) ++ usage_events chunk)%list.

(** An OpenAI stream chunk: an object whose [choices], when present, is an
    array led by an object whose [delta], when present, is an object. *)
Definition choices_shaped (v : json) : bool :=
  match v with
  | JArr [] => true
  | JArr (choice :: _) => is_obj choice && absent_or is_obj (field "delta" choice)
  | _ => false
  end.

Definition openai_shaped (chunk : json) : bool :=
  is_obj chunk && absent_or choices_shaped (field "choices" chunk).

(** [choices[0].delta.content], the empty string when any step is missing. *)
Definition openai_delta_content (chunk : json) : json :=
  match field "choices" chunk with
  | Some (JArr (choice :: _)) =>
    field_or "content" (JStr "") (field_or "delta" (JObj []) choice)
  | _ => JStr ""
  end.

Definition openai_chunk_events (chunk : json) : list event :=
  let text := openai_delta_content chunk in
  if Py.truthy text then [Content text] else [].

(** The kind of an outward frame, read off its first bytes. *)
Definition is_done_frame (f : string) : bool :=
  String.prefix ("data: {" ++ q "type" ++ ": " ++ q "done") f.

Definition is_usage_frame (f : string) : bool :=
  String.prefix ("data: {" ++ q "type" ++ ": " ++ q "usage") f.


(** ** JSON text of the object that holds one error message

    The grammar of RFC 8259, as [json.loads] reads it, for the texts of the
    object whose only member is ["error"] with a string value.  A [\u] escape
    is read loosely: it stands for at most three bytes of the decoded string
    (a surrogate pair, two escapes, for four), which admits every decoding
    [json.loads] performs. *)

Fixpoint all_chars (p : ascii -> bool) (s : string) : bool :=
  match s with
  | EmptyString => true
  | String c s' => p c && all_chars p s'
  end.

Fixpoint any_char (p : ascii -> bool) (s : string) : bool :=
  match s with
  | EmptyString => false
  | String c s' => p c || any_char p s'
  end.

Definition code_in (codes : list N) (c : ascii) : bool :=
  existsb (N.eqb (N_of_ascii c)) codes.

(** Space, tab, line feed, carriage return. *)
Definition is_ws : ascii -> bool := code_in [32; 9; 10; 13]%N.

(** A character that may stand for itself inside a string literal. *)
Definition raw_char (c : ascii) : bool :=
  (32 <=? N_of_ascii c)%N && negb (code_in [34; 92]%N c).

(** Double quote, backslash, line feed: characters the claim on error frames
    names. *)
Definition needs_escape : ascii -> bool := code_in [34; 92; 10]%N.

Definition simple_escape (e : ascii) : option ascii :=
  match N_of_ascii e with
  | 34%N => Some "034"%char
  | 92%N => Some "092"%char
  | 47%N => Some "047"%char
  | 98%N => Some "008"%char
  | 102%N => Some "012"%char
  | 110%N => Some "010"%char
  | 114%N => Some "013"%char
  | 116%N => Some "009"%char
  | _ => None
  end.

Definition is_hex (c : ascii) : bool :=
  let n := N_of_ascii c in
  Utf8.between 48 57 n || Utf8.between 65 70 n || Utf8.between 97 102 n.

(** [string_body lit s]: the text [lit] between the quotes of a string
    literal denotes the string [s]. *)
Inductive string_body : string -> string -> Prop :=
| body_end : string_body "" ""
| body_raw c lit s :
    raw_char c = true -> string_body lit s ->
    string_body (String c lit) (String c s)
| body_escape e c lit s :
    simple_escape e = Some c -> string_body lit s ->
    string_body (String backslash (String e lit)) (String c s)
| body_unicode h1 h2 h3 h4 u lit s :
    is_hex h1 = true -> is_hex h2 = true -> is_hex h3 = true -> is_hex h4 = true ->
    String.length u <= 3 -> string_body lit s ->
    string_body
      (String backslash (String "u" (String h1 (String h2 (String h3 (String h4 lit))))))
      (u ++ s).

(** [spaced K t]: optional white space, then a text that [K] accepts. *)
Inductive spaced (K : string -> Prop) : string -> Prop :=
| spaced_here t : K t -> spaced K t
| spaced_skip c t : is_ws c = true -> spaced K t -> spaced K (String c t).

Definition symbol (c : ascii) (K : string -> Prop) (t : string) : Prop :=
  exists t', t = String c t' /\ K t'.

Definition quoted (s : string) (K : string -> Prop) (t : string) : Prop :=
  exists lit t', t = dq ++ lit ++ dq ++ t' /\ string_body lit s /\ K t'.

Definition finished (t : string) : Prop := t = "".

(** [error_object_text t b]: [t] is a JSON text of the object whose ["error"]
    member is the string [b]. *)
Definition error_object_text (t b : string) : Prop :=
  spaced (symbol "{"
   (spaced (quoted "error"
    (spaced (symbol ":"
     (spaced (quoted b
      (spaced (symbol "}"
       (spaced finished)))))))))) t.

(** What stands between ["data: "] and the blank line in an error frame. *)
Definition error_payload (message : string) : string :=
  "{" ++ dq ++ "error" ++ dq ++ ": " ++ dq ++ message ++ dq ++ "}".

(** ** Sample documents, a serializer and a decoder for them *)

Module Sample.

Definition escape_char (c : ascii) : string :=
  match N_of_ascii c with
  | 34%N => String backslash dq
  | 92%N => String backslash (String backslash "")
  | 10%N => String backslash "n"
  | 13%N => String backslash "r"
  | 9%N => String backslash "t"
  | _ => String c ""
  end.

Fixpoint escape (s : string) : string :=
  match s with
  | EmptyString => ""
  | String c s' => escape_char c ++ escape s'
  end.

Definition float_text (f : spec_float) : string :=
  match f with
  | S754_nan => "NaN"
  | S754_infinity false => "Infinity"
  | S754_infinity true => "-Infinity"
  | S754_zero false => "0.0"
  | S754_zero true => "-0.0"
  | S754_finite _ _ _ => "<float>"
  end.

(** A serializer with the separators of [json.dumps].  It agrees with
    [json.dumps] on the documents below, which hold integers and strings of
    printable ASCII (a finite float is printed as a placeholder: the documents
    hold none). *)
Fixpoint dumps (j : json) : string :=
  match j with
  | JNull => "null"
  | JBool true => "true"
  | JBool false => "false"
  | JInt n => NilZero.string_of_int (Z.to_int n)
  | JFloat f => float_text f
  | JStr s => q (escape s)
  | JArr l => "[" ++ String.concat ", " (map dumps l) ++ "]"
  | JObj m =>
    "{" ++ String.concat ", "
             (map (fun kv => match kv with
                             | (k, v) => q (escape k) ++ ": " ++ dumps v
                             end) m)
        ++ "}"
  end.

(** A decoder that knows the documents of [known] by their serialization
    and rejects every other text. *)
Definition loads_among (known : list json) (s : string) : option json :=
  find (fun j => String.eqb (dumps j) s) known.

Definition hi_chunk : json :=
  JObj [("choices", JArr [JObj [("delta", JObj [("content", JStr "Hi")])]])].

Definition bye_chunk : json :=
  JObj [("choices", JArr [JObj [("delta", JObj [("content", JStr "Bye")])]])].

Definition usage_meta : json :=
  JObj [("prompt_tokens", JInt 3); ("completion_tokens", JInt 1); ("total_tokens", JInt 4)].

(** An OpenAI chunk that reports usage, under the OpenAI key and under
    Gemini's. *)
Definition hi_chunk_with_usage : json :=
  JObj [("choices", JArr [JObj [("delta", JObj [("content", JStr "Hi")])]]);
        ("usage", usage_meta);
        ("usageMetadata", usage_meta)].

Definition thought_part : json := JObj [("thought", JBool true); ("text", JStr "A")].
Definition answer_part : json := JObj [("text", JStr "B")].
Definition empty_part : json := JObj [("thought", JBool true); ("text", JStr "")].

Definition gemini_meta : json :=
  JObj [("promptTokenCount", JInt 5); ("candidatesTokenCount", JInt 2);
        ("totalTokenCount", JInt 7)].

(** The response of the spec's example: a thought part, then an answer part. *)
Definition two_parts : json :=
  JObj [("candidates",
         JArr [JObj [("content", JObj [("parts", JArr [thought_part; answer_part])])]])].

Definition gemini_chunk : json :=
  JObj [("candidates",
         JArr [JObj [("content",
                      JObj [("parts", JArr [thought_part; empty_part; answer_part])])]]);
        ("usageMetadata", gemini_meta)].

Definition known : list json :=
  [hi_chunk; bye_chunk; hi_chunk_with_usage; two_parts; gemini_chunk].

(** The depth of the arrays a text opens with, and a text that opens with
    more arrays than any interpreter nests calls. *)
Fixpoint opening (s : string) : N :=
  match s with
  | String "["%char s' => N.succ (opening s')
  | _ => 0%N
  end.

Definition deep_payload : string := N.iter 100000 (String "["%char) "".

(** [json.loads] on the texts of the examples: the documents of [known],
    [RecursionError] for a text nested as deep as [deep_payload]; every
    other text it rejects with [json.JSONDecodeError]. *)
Definition loads (s : string) : result json :=
  if (100000 <=? opening s)%N then Raise RecursionError
  else match loads_among known s with
       | Some j => Ok j
       | None => Raise JSONDecodeError
       end.

Definition config : Config.t :=
  {| Config.GEMINI_API_KEY := "g-key";
     Config.GEMINI_BASE_URL := "https://generativelanguage.googleapis.com/v1beta";
     Config.OPENAI_API_KEY := "o-key";
     Config.OPENAI_BASE_URL := "https://api.openai.com/v1" |}.

Definition no_keys : Config.t :=
  {| Config.GEMINI_API_KEY := "";
     Config.GEMINI_BASE_URL := "https://generativelanguage.googleapis.com/v1beta";
     Config.OPENAI_API_KEY := "";
     Config.OPENAI_BASE_URL := "https://api.openai.com/v1" |}.

Definition request (provider : string) : ChatRequest.t :=
  {| ChatRequest.provider := provider;
     ChatRequest.model := None;
     ChatRequest.messages :=
       [ {| Message.role := "system"; Message.content := "Be brief." |};
         {| Message.role := "user"; Message.content := "Hello" |} ];
     ChatRequest.temperature := S754_finite false 6305039478318694 (-53);
     ChatRequest.max_tokens := 4096;
     ChatRequest.stream := true;
     ChatRequest.enable_search := false;
     ChatRequest.include_thoughts := true |}.

(** An upstream that answers 200 with the given lines. *)
Definition streams (lines : list string) (_ : Http.request) : Http.response :=
  {| Http.status_code := 200;
     Http.text := "";
     Http.json_ := Raise JSONDecodeError;
     Http.aread := [];
     Http.aiter_lines := lines |}.

(** An upstream that answers with an error status and body. *)
Definition fails (status : Z) (body : list Byte.byte) (_ : Http.request) : Http.response :=
  {| Http.status_code := status;
     Http.text := "";
     Http.json_ := Raise JSONDecodeError;
     Http.aread := body;
     Http.aiter_lines := [] |}.

Definition server_error : list Byte.byte := list_byte_of_string "server error".

(** A body in a legacy encoding: the byte [0xE9] is no UTF-8 sequence. *)
Definition latin1_body : list Byte.byte :=
  (list_byte_of_string "caf" ++ [Byte.xe9])%list.

Definition data (j : json) : string := "data: " ++ dumps j.

(** A line whose payload is no JSON text, and a message that holds quotes. *)
Definition broken_line : string := "data: {not json".
Definition deep_line : string := "data: " ++ deep_payload.
Definition quoted_message : string := "say " ++ dq ++ "hi" ++ dq.

End Sample.

(** ** The two relays behind one name *)

Inductive provider : Type := Gemini | OpenAI.

Section Relay.

Variable json_loads : string -> result json.
Variable json_dumps : json -> string.
Variable config : Config.t.
Variable upstream : Http.request -> Http.response.

(** The effects of yielding the frames of [es] in turn. *)
Definition yields (es : list event) : list effect :=
  map (fun e => Yield (frame json_dumps e)) es.

Definition relay_request (p : provider) (request : ChatRequest.t) : Http.request :=
  match p with
  | Gemini => gemini_stream_request config request
  | OpenAI => openai_request config request true
  end.

Definition relay (p : provider) (request : ChatRequest.t) : M unit :=
  match p with
  | Gemini => stream_gemini json_loads json_dumps config upstream request
  | OpenAI => stream_openai json_loads json_dumps config upstream request
  end.

(** The loop of a relay over the lines of a response. *)
Definition relay_lines (p : provider) (lines : list string) : M unit :=
  match p with
  | Gemini => for_each (gemini_line json_loads json_dumps) lines
  | OpenAI => openai_lines json_loads json_dumps lines ;; ret tt
  end.

(** A line that a relay passes over: it yields nothing and the loop goes on. *)
Definition passed_over (p : provider) (line : string) : Prop :=
  match p with
  | Gemini => gemini_line json_loads json_dumps line = ([], Ok tt)
  | OpenAI => openai_line json_loads json_dumps line = ([], Ok Next)
  end.

(** What a relay does with one decoded chunk. *)
Definition decode_step (p : provider) (chunk : json) : M unit :=
  match p with
  | Gemini => gemini_chunk json_dumps chunk
  | OpenAI => openai_chunk json_dumps chunk
  end.

(** What the walk over the parts may leave behind: the events of all the
    parts when it returns, those of a prefix of the parts when it raises. *)
Definition parts_outcome (chunk : json) (m : M unit) : Prop :=
  match snd m with
  | Ok _ => fst m = yields (flat_map part_events (gemini_parts chunk))
  | Raise _ =>
    exists seen rest,
      gemini_parts chunk = (seen ++ rest)%list
      /\ fst m = yields (flat_map part_events seen)
  end.

(** ... and the usage step: the usage event when it returns, nothing when
    it raises. *)
Definition usage_outcome (chunk : json) (m : M unit) : Prop :=
  match snd m with
  | Ok _ => fst m = yields (usage_events chunk)
  | Raise _ => fst m = []
  end.

(** The same steps on a chunk of the provider's shape. *)
Definition parts_shaped_outcome (chunk : json) (m : M unit) : Prop :=
  gemini_shaped chunk = true ->
  m = (yields (flat_map part_events (gemini_parts chunk)), Ok tt).

Definition usage_shaped_outcome (chunk : json) (m : M unit) : Prop :=
  gemini_shaped chunk = true -> m = (yields (usage_events chunk), Ok tt).

Definition openai_shaped_outcome (chunk : json) (m : M unit) : Prop :=
  openai_shaped chunk = true -> m = (yields (openai_chunk_events chunk), Ok tt).

End Relay.

(** The two halves of [gemini_parse] on a response of the expected shape. *)
Definition parse_parts_outcome (data : json) (r : result (string * option string)) : Prop :=
  gemini_shaped data = true -> r = Ok (spec_content data, spec_thinking_content data).

Definition parse_usage_outcome (data : json) (r : result (option json)) : Prop :=
  gemini_shaped data = true -> r = Ok (spec_gemini_usage data).

Definition shaped (p : provider) : json -> bool :=
  match p with
  | Gemini => gemini_shaped
  | OpenAI => openai_shaped
  end.

Definition chunk_events (p : provider) : json -> list event :=
  match p with
  | Gemini => gemini_chunk_events
  | OpenAI => openai_chunk_events
  end.

Definition done_line : string := "data: [DONE]".

(** A line that ends the loop of a relay: only OpenAI's has one. *)
Definition is_sentinel (p : provider) (line : string) : bool :=
  match p with
  | Gemini => false
  | OpenAI => String.eqb line done_line
  end.

(** The response [r] with other lines. *)
Definition with_lines (lines : list string) (r : Http.response) : Http.response :=
  {| Http.status_code := Http.status_code r;
     Http.text := Http.text r;
     Http.json_ := Http.json_ r;
     Http.aread := Http.aread r;
     Http.aiter_lines := lines |}.

(** The API key of the provider a request names, when it names one. *)
Definition configured_key (config : Config.t) (request : ChatRequest.t) : option string :=
  let provider := Py.lower (ChatRequest.provider request) in
  if String.eqb provider "gemini" then Some (Config.GEMINI_API_KEY config)
  else if String.eqb provider "openai" then Some (Config.OPENAI_API_KEY config)
  else None.

Definition is_usage_event (e : event) : bool :=
  match e with
  | Usage _ _ _ => true
  | _ => false
  end.

(** ** The single-shot calls behind one name, and what a run may yield *)

Section Calls.

Variable json_dumps : json -> string.
Variable config : Config.t.
Variable upstream : Http.request -> Http.response.

Definition call_request (p : provider) (request : ChatRequest.t) : Http.request :=
  match p with
  | Gemini => gemini_request config request
  | OpenAI => openai_request config request false
  end.

Definition call (p : provider) (request : ChatRequest.t) : M ChatResponse.t :=
  match p with
  | Gemini => call_gemini config upstream request
  | OpenAI => call_openai config upstream request
  end.

(** [call_gemini] and [call_openai] from [data = response.json()] on. *)
Definition parse (p : provider) : json -> result ChatResponse.t :=
  match p with
  | Gemini => gemini_parse
  | OpenAI => openai_parse
  end.

(** The events a relay yields while it reads: content, and for Gemini
    thinking and usage; a text is never empty. *)
Definition streamed (p : provider) (e : event) : bool :=
  match e, p with
  | Content text, _ => Py.truthy text
  | Thinking text, Gemini => Py.truthy text
  | Usage _ _ _, Gemini => true
  | _, _ => false
  end.

(** A computation that does nothing but yield such events. *)
Definition emits (p : provider) (A : Type) (m : M A) : Prop :=
  exists es, forallb (streamed p) es = true /\ fst m = yields json_dumps es.

End Calls.

(** The provider a request selects: the one it names, when its key is set. *)
Definition selected (config : Config.t) (request : ChatRequest.t) : option provider :=
  let provider := Py.lower (ChatRequest.provider request) in
  if String.eqb provider "gemini" then
    if String.eqb (Config.GEMINI_API_KEY config) "" then None else Some Gemini
  else if String.eqb provider "openai" then
    if String.eqb (Config.OPENAI_API_KEY config) "" then None else Some OpenAI
  else None.

(** An OpenAI response: an object whose [choices], when present, is an array
    led by an object whose [message], when present, is an object whose
    [content], when present, is a string; and whose [usage], when present,
    is an object. *)
Definition message_shaped (v : json) : bool :=
  is_obj v && absent_or is_string (field "content" v).

Definition choice_shaped (v : json) : bool :=
  is_obj v && absent_or message_shaped (field "message" v).

Definition response_choices_shaped (v : json) : bool :=
  match v with
  | JArr [] => true
  | JArr (choice :: _) => choice_shaped choice
  | _ => false
  end.

Definition openai_response_shaped (data : json) : bool :=
  is_obj data
  && absent_or response_choices_shaped (field "choices" data)
  && absent_or is_obj (field "usage" data).

(** [choices[0].message.content], when every step is there. *)
Definition openai_message_content (data : json) : option json :=
  match field "choices" data with
  | Some (JArr (choice :: _)) =>
    match field "message" choice with
    | Some message => field "content" message
    | None => None
    end
  | _ => None
  end.

Definition openai_response_text (data : json) : string :=
  match openai_message_content data with
  | Some (JStr s) => s
  | _ => ""
  end.

Definition spec_openai_usage (data : json) : option json :=
  option_map (spec_usage "prompt_tokens" "completion_tokens" "total_tokens")
             (field "usage" data).

Definition response_shaped (p : provider) : json -> bool :=
  match p with
  | Gemini => gemini_shaped
  | OpenAI => openai_response_shaped
  end.

(** The response a document of the provider's shape is parsed into. *)
Definition spec_response (p : provider) (data : json) : ChatResponse.t :=
  match p with
  | Gemini =>
    {| ChatResponse.content := spec_content data;
       ChatResponse.thinking_content := spec_thinking_content data;
       ChatResponse.usage := spec_gemini_usage data |}
  | OpenAI =>
    {| ChatResponse.content := openai_response_text data;
       ChatResponse.thinking_content := None;
       ChatResponse.usage := spec_openai_usage data |}
  end.

(** [openai_parse] on a response of the expected shape, and on one whose
    message content is [null]. *)
Definition openai_parse_outcome (data : json) (r : result ChatResponse.t) : Prop :=
  openai_response_shaped data = true -> r = Ok (spec_response OpenAI data).

Definition openai_null_outcome (data : json) (r : result ChatResponse.t) : Prop :=
  openai_message_content data = Some JNull ->
  absent_or is_obj (field "usage" data) = true ->
  r = Raise ValidationError.

(** What an event adds to the content, the thinking content and the usage
    of a result accumulated from a stream. *)
Definition content_text (e : event) : string :=
  match e with
  | Content (JStr s) => s
  | _ => ""
  end.

Definition thinking_text (e : event) : string :=
  match e with
  | Thinking (JStr s) => s
  | _ => ""
  end.

Definition event_usage (e : event) : list json :=
  match e with
  | Usage p c t => [usage_dict p c t]
  | _ => []
  end.

Definition option_list (A : Type) (o : option A) : list A :=
  match o with
  | Some a => [a]
  | None => []
  end.

(** The text of the only part of an entry of [contents]. *)
Definition entry_text (entry : json) : option json :=
  match field "parts" entry with
  | Some (JArr [part]) => field "text" part
  | _ => None
  end.

(** ** Requests the client can write out *)

(** [httpx] writes [json=body] with [allow_nan=False]: a body that holds a
    number that is NaN or infinite makes [client.post] and [client.stream]
    raise [ValueError] before anything is sent.  The temperature is the only
    number of a body that can be either. *)
Definition finite (f : spec_float) : bool :=
  match f with
  | S754_zero _ | S754_finite _ _ _ => true
  | S754_infinity _ | S754_nan => false
  end.

Definition serialisable (request : ChatRequest.t) : bool :=
  finite (ChatRequest.temperature request).

(** ** What a request body holds *)

(** The texts of the conversation in a request body, entry by entry. *)
Definition wire_texts (p : provider) (body : json) : option (list (option json)) :=
  match p with
  | Gemini =>
    match field "contents" body with
    | Some (JArr entries) => Some (map entry_text entries)
    | _ => None
    end
  | OpenAI =>
    match field "messages" body with
    | Some (JArr entries) => Some (map (field "content") entries)
    | _ => None
    end
  end.

(** The request with other search and thinking options. *)
Definition with_options (search thoughts : bool) (request : ChatRequest.t) : ChatRequest.t :=
  {| ChatRequest.provider := ChatRequest.provider request;
     ChatRequest.model := ChatRequest.model request;
     ChatRequest.messages := ChatRequest.messages request;
     ChatRequest.temperature := ChatRequest.temperature request;
     ChatRequest.max_tokens := ChatRequest.max_tokens request;
     ChatRequest.stream := ChatRequest.stream request;
     ChatRequest.enable_search := search;
     ChatRequest.include_thoughts := thoughts |}.

Definition default_model (p : provider) : string :=
  match p with
  | Gemini => Config.DEFAULT_GEMINI_MODEL
  | OpenAI => Config.DEFAULT_OPENAI_MODEL
  end.

(** The model a request names upstream. *)
Definition wire_model (p : provider) (request : ChatRequest.t) : string :=
  model_or (ChatRequest.model request) (default_model p).

(** ** Sample replies, for closed instances of the statements *)

Module Replies.

(** An upstream that answers a single-shot call. *)
Definition answers (status : Z) (text : string) (document : result json)
    (_ : Http.request) : Http.response :=
  {| Http.status_code := status;
     Http.text := text;
     Http.json_ := document;
     Http.aread := [];
     Http.aiter_lines := [] |}.

(** A chat completion, and one whose message is a tool call. *)
Definition completion : json :=
  JObj [("choices",
         JArr [JObj [("message", JObj [("role", JStr "assistant");
                                       ("content", JStr "Hello!")])]]);
        ("usage", Sample.usage_meta)].

Definition tool_call : json :=
  JObj [("choices",
         JArr [JObj [("message", JObj [("role", JStr "assistant");
                                       ("content", JNull);
                                       ("tool_calls", JArr [])])]])].

End Replies.

(** ** Tactics *)

(** Replace a scrutinee by its cases, keeping the equation. *)
Ltac split_match :=
  match goal with
  | |- context [match ?x with _ => _ end] =>
    let E := fresh "E" in destruct x eqn:E
  end.

(** Run a handler on a document, case by case: [P] is the property stated
    of the handler's code, which is its last argument; [step] rewrites a
    finished Python operation away. *)
Ltac crack P step :=
  repeat first
    [ step
    | progress cbn [Py.contains Py.getitem Py.getitem0 Py.truthy Py.iter Py.get and_then]
    | match goal with
      | |- P _ ?code =>
        match code with
        | context [Py.assoc ?k ?m] => let E := fresh "E" in destruct (Py.assoc k m) eqn:E
        | context [Py.contains _ ?v] => is_var v; destruct v
        | context [Py.truthy ?v] => is_var v; destruct v
        | context [Py.getitem0 ?v] => is_var v; destruct v
        | context [Py.getitem ?v _] => is_var v; destruct v
        | context [Py.get ?v _ _] => is_var v; destruct v
        | context [Py.iter ?v] => is_var v; destruct v
        | context [JArr ?l] => is_var l; destruct l
        | context [JObj ?l] => is_var l; destruct l
        end
      | |- P _ (if match ?x with _ => _ end then _ else _) => is_var x; destruct x
      | |- P _ (if ?x then _ else _) => let E := fresh "E" in destruct x eqn:E
      | |- P _ (bind (lift (match ?x with _ => _ end)) _) =>
        let E := fresh "E" in destruct x eqn:E
      end ].

(** Bring back what the case analysis learnt about the members. *)
Ltac recall :=
  repeat match goal with
         | E : Py.assoc _ _ = _ |- _ => rewrite E
         end.

Ltac unshape :=
  unfold gemini_shaped, candidates_shaped, candidate_shaped, content_shaped,
    parts_shaped, openai_shaped, choices_shaped, absent_or, is_obj, field_or, field;
  subst; recall; cbn [andb].

(** The same for an OpenAI response. *)
Ltac unshape_response :=
  unfold openai_response_shaped, response_choices_shaped, choice_shaped, message_shaped,
    openai_response_text, openai_message_content, spec_openai_usage, spec_usage,
    absent_or, is_obj, is_string, field_or, field;
  subst; recall; cbn [andb option_map]; recall.

(** * Properties *)

(** ** Laws of sequencing *)

Lemma bind_ret_l (A B : Type) (a : A) (k : A -> M B) : bind (ret a) k = k a.
Proof. unfold bind, ret. destruct (k a). reflexivity. Qed.

Lemma bind_lift_ok (A B : Type) (a : A) (k : A -> M B) : bind (lift (Ok a)) k = k a.
Proof. apply bind_ret_l. Qed.

Lemma bind_lift_raise (A B : Type) (e : exn) (k : A -> M B) :
  bind (lift (Raise e)) k = ([], Raise e).
Proof. reflexivity. Qed.

Lemma bind_ret_r (A : Type) (m : M A) : bind m (fun a => ret a) = m.
Proof.
  destruct m as [t [a | e]]; unfold bind, ret; [rewrite app_nil_r |]; reflexivity.
Qed.

Lemma bind_assoc (A B C : Type) (m : M A) (k : A -> M B) (h : B -> M C) :
  bind (bind m k) h = bind m (fun a => bind (k a) h).
Proof.
  destruct m as [t [a | e]]; unfold bind; [| reflexivity].
  destruct (k a) as [t' [b | e]]; [| reflexivity].
  destruct (h b) as [t'' r]. rewrite app_assoc. reflexivity.
Qed.

Lemma bind_ext (A B : Type) (m : M A) (k1 k2 : A -> M B) :
  (forall a, k1 a = k2 a) -> bind m k1 = bind m k2.
Proof.
  intros H. destruct m as [t [a | e]]; unfold bind; [rewrite H |]; reflexivity.
Qed.

Lemma for_each_app (A : Type) (body : A -> M unit) (l1 l2 : list A) :
  for_each body (l1 ++ l2) = (for_each body l1 ;; for_each body l2).
Proof.
  induction l1 as [| x l1 IH]; simpl.
  - symmetry. apply bind_ret_l.
  - rewrite IH, bind_assoc. reflexivity.
Qed.

(** ** Strings *)

Lemma prefix_drop (p s : string) :
  String.prefix p s = true -> s = p ++ Py.drop (String.length p) s.
Proof.
  revert s. induction p as [| c p IH]; intros s H.
  - reflexivity.
  - destruct s as [| d s]; simpl in H; [discriminate |].
    destruct (ascii_dec c d) as [-> |]; [| discriminate].
    simpl. f_equal. apply IH, H.
Qed.

Lemma done_line_unique (line : string) :
  Py.startswith "data: " line = true ->
  String.eqb (Py.drop 6 line) "[DONE]" = true ->
  line = done_line.
Proof.
  intros Hp Hd. apply String.eqb_eq in Hd.
  rewrite (prefix_drop "data: " line Hp). simpl String.length. rewrite Hd. reflexivity.
Qed.

Section Claims.

Variable json_loads : string -> result json.
Variable json_dumps : json -> string.
Variable config : Config.t.

(** ** Request translation *)

Lemma fold_left_snoc (A B : Type) (f : A -> B) (l : list A) (acc : list B) :
  fold_left (fun acc x => (acc ++ [f x])%list) l acc = (acc ++ map f l)%list.
Proof.
  revert acc. induction l as [| x l IH]; intros acc; simpl.
  - symmetry. apply app_nil_r.
  - rewrite IH, <- app_assoc. reflexivity.
Qed.

Lemma gemini_contents_map (msgs : list Message.t) :
  gemini_contents msgs = map gemini_content msgs.
Proof. unfold gemini_contents. apply fold_left_snoc. Qed.

Lemma gemini_role_cases (role : string) :
  gemini_role role = if string_dec role "user" then "user" else "model".
Proof.
  unfold gemini_role. destruct (string_dec role "user") as [-> | H].
  - reflexivity.
  - apply String.eqb_neq in H. rewrite H. reflexivity.
Qed.

(** C7. In the body of both Gemini requests, the entry of every message
    carries the wire role "user" when the message's role is "user" and
    "model" otherwise, in the order of the messages; mapping a wire role
    again returns it unchanged. *)
Theorem gemini_wire_roles (request : ChatRequest.t) (role : string) :
  Http.body (gemini_request config request)
  = Http.body (gemini_stream_request config request)
  /\ (exists contents,
         field "contents" (Http.body (gemini_request config request))
         = Some (JArr contents)
         /\ map (field "role") contents
            = map (fun msg =>
                     Some (JStr (if string_dec (Message.role msg) "user"
                                 then "user" else "model")))
                  (ChatRequest.messages request))
  /\ gemini_role role = (if string_dec role "user" then "user" else "model")
  /\ gemini_role (gemini_role role) = gemini_role role.
Proof.
  split; [reflexivity |]. split; [| split].
  - exists (gemini_contents (ChatRequest.messages request)). split; [reflexivity |].
    rewrite gemini_contents_map, map_map. apply map_ext. intros msg.
    simpl. rewrite gemini_role_cases. reflexivity.
  - apply gemini_role_cases.
  - rewrite !gemini_role_cases.
    destruct (string_dec role "user"); reflexivity.
Qed.

(** ** Validation in the two routes *)

(** C4. A request whose provider, lowered, is neither "gemini" nor "openai"
    makes [chat] raise the 400 exception without any effect (no upstream
    request), and makes [chat_stream] yield one error frame and nothing
    else. *)
Theorem unsupported_provider_rejected
    (upstream : Http.request -> Http.response) (request : ChatRequest.t) :
  Py.lower (ChatRequest.provider request) <> "gemini" ->
  Py.lower (ChatRequest.provider request) <> "openai" ->
  chat config upstream request
  = ([], Raise (HTTPException 400 (unsupported (ChatRequest.provider request))))
  /\ chat_stream json_loads json_dumps config upstream request
     = (yields json_dumps [Error (unsupported (ChatRequest.provider request))], Ok tt).
Proof.
  intros Hg Ho. apply String.eqb_neq in Hg, Ho.
  unfold chat, chat_stream. rewrite Hg, Ho. split; reflexivity.
Qed.

Lemma missing_key
    (upstream : Http.request -> Http.response) (request : ChatRequest.t) :
  configured_key config request = Some "" ->
  exists detail,
    chat config upstream request = ([], Raise (HTTPException 500 detail))
    /\ chat_stream json_loads json_dumps config upstream request
       = (yields json_dumps [Error detail], Ok tt).
Proof.
  unfold configured_key, chat, chat_stream. intros H.
  destruct (String.eqb (Py.lower (ChatRequest.provider request)) "gemini").
  - injection H as ->. exists gemini_key_missing. split; reflexivity.
  - destruct (String.eqb (Py.lower (ChatRequest.provider request)) "openai");
      [| discriminate].
    injection H as ->. exists openai_key_missing. split; reflexivity.
Qed.

(** C5. A request that names a supported provider whose API key is the
    empty string makes [chat] raise a 500 exception without any effect (no
    upstream request), and makes [chat_stream] yield one error frame, with
    the same message, and nothing else. *)
Theorem missing_credential_rejected
    (upstream : Http.request -> Http.response) (request : ChatRequest.t) :
  configured_key config request = Some "" ->
  exists detail,
    chat config upstream request = ([], Raise (HTTPException 500 detail))
    /\ requests (fst (chat config upstream request)) = []
    /\ chat_stream json_loads json_dumps config upstream request
       = (yields json_dumps [Error detail], Ok tt).
Proof.
  intros H. destruct (missing_key upstream request H) as (detail & Hc & Hs).
  exists detail. rewrite Hc, Hs. repeat split.
Qed.

(** ** Error status *)

Lemma relay_error_status
    (upstream : Http.request -> Http.response) (p : provider)
    (request : ChatRequest.t) :
  Http.status_code (upstream (relay_request config p request)) <> 200%Z ->
  relay json_loads json_dumps config upstream p request
  = (send upstream (relay_request config p request) ;;
     error_text <- lift (Utf8.decode (Http.aread (upstream (relay_request config p request)))) ;;
     emit json_dumps (Error error_text)).
Proof.
  intros H. apply Z.eqb_neq in H.
  destruct p; unfold relay, stream_gemini, stream_openai, relay_request in *;
    unfold send at 1; unfold bind at 1; unfold send at 1; unfold bind at 1;
    rewrite H; reflexivity.
Qed.

(** C3, as the code has it. A relay whose upstream answers with a status
    other than 200 and a body that is valid UTF-8 sends its one request,
    yields one error frame carrying the decoded body, and ends; that frame is
    no done frame and none follows it. *)
Theorem error_status_single_error
    (upstream : Http.request -> Http.response) (p : provider)
    (request : ChatRequest.t) (b : string) :
  Http.status_code (upstream (relay_request config p request)) <> 200%Z ->
  Utf8.decode (Http.aread (upstream (relay_request config p request))) = Ok b ->
  relay json_loads json_dumps config upstream p request
  = (Send (relay_request config p request) :: yields json_dumps [Error b], Ok tt)
  /\ is_done_frame (frame json_dumps (Error b)) = false.
Proof.
  intros Hs Hb. split; [| reflexivity].
  rewrite (relay_error_status upstream p request Hs), Hb. reflexivity.
Qed.

(** ** The loops over the lines *)

Lemma gemini_line_malformed (line : string) :
  Py.startswith "data: " line = true ->
  json_loads (Py.drop 6 line) = Raise JSONDecodeError ->
  gemini_line json_loads json_dumps line = ([], Ok tt).
Proof.
  intros Hp Hl. unfold gemini_line, loads. rewrite Hp, Hl. reflexivity.
Qed.

Lemma openai_line_malformed (line : string) :
  Py.startswith "data: " line = true ->
  json_loads (Py.drop 6 line) = Raise JSONDecodeError ->
  String.eqb line done_line = false ->
  openai_line json_loads json_dumps line = ([], Ok Next).
Proof.
  intros Hp Hl Hd. unfold openai_line, loads. rewrite Hp, Hl.
  destruct (String.eqb (Py.drop 6 line) "[DONE]") eqn:E; [| reflexivity].
  rewrite (done_line_unique line Hp E) in Hd. discriminate.
Qed.

(** Only the sentinel breaks the loop. *)
Lemma openai_line_break (line : string) (t : list effect) :
  openai_line json_loads json_dumps line = (t, Ok Break) -> line = done_line.
Proof.
  unfold openai_line. intros H.
  destruct (Py.startswith "data: " line) eqn:Hp; [| discriminate].
  destruct (String.eqb (Py.drop 6 line) "[DONE]") eqn:Hd.
  - apply done_line_unique; assumption.
  - exfalso. revert H.
    destruct (except_JSONDecodeError_pass
                (chunk <- lift (loads json_loads (Py.drop 6 line)) ;;
                 openai_chunk json_dumps chunk)) as [t' [[] | e]];
      unfold bind, ret; simpl; discriminate.
Qed.

Lemma relay_lines_openai_cons (line : string) (rest : list string) :
  relay_lines json_loads json_dumps OpenAI (line :: rest)
  = (f <- openai_line json_loads json_dumps line ;;
     match f with
     | Break => ret tt
     | Next => relay_lines json_loads json_dumps OpenAI rest
     end).
Proof.
  unfold relay_lines. simpl openai_lines. rewrite bind_assoc.
  apply bind_ext. intros [|]; [reflexivity | apply bind_ret_l].
Qed.

Lemma relay_lines_pass (p : provider) (pre : list string) (line : string)
    (post : list string) :
  passed_over json_loads json_dumps p line ->
  relay_lines json_loads json_dumps p (pre ++ line :: post)
  = relay_lines json_loads json_dumps p (pre ++ post).
Proof.
  intros H. destruct p; simpl in H.
  - unfold relay_lines. rewrite !for_each_app. apply bind_ext. intros _.
    simpl for_each. rewrite H. apply bind_ret_l.
  - induction pre as [| a pre IH].
    + simpl app. rewrite relay_lines_openai_cons, H. apply bind_ret_l.
    + simpl app. rewrite !relay_lines_openai_cons. apply bind_ext.
      intros [|]; [apply IH | reflexivity].
Qed.

Lemma malformed_passed_over (p : provider) (line : string) :
  Py.startswith "data: " line = true ->
  json_loads (Py.drop 6 line) = Raise JSONDecodeError ->
  is_sentinel p line = false ->
  passed_over json_loads json_dumps p line.
Proof.
  intros Hp Hl Hs. destruct p; simpl.
  - apply gemini_line_malformed; assumption.
  - apply openai_line_malformed; assumption.
Qed.

Lemma relay_lines_skip (p : provider) (pre : list string) (line : string)
    (post : list string) :
  Py.startswith "data: " line = true ->
  json_loads (Py.drop 6 line) = Raise JSONDecodeError ->
  is_sentinel p line = false ->
  relay_lines json_loads json_dumps p (pre ++ line :: post)
  = relay_lines json_loads json_dumps p (pre ++ post).
Proof.
  intros Hp Hl Hs. apply relay_lines_pass, malformed_passed_over; assumption.
Qed.

Lemma relay_ok_status
    (upstream : Http.request -> Http.response) (p : provider)
    (request : ChatRequest.t) :
  Http.status_code (upstream (relay_request config p request)) = 200%Z ->
  relay json_loads json_dumps config upstream p request
  = (send upstream (relay_request config p request) ;;
     relay_lines json_loads json_dumps p
       (Http.aiter_lines (upstream (relay_request config p request))) ;;
     emit json_dumps Done).
Proof.
  intros H. apply Z.eqb_eq in H.
  destruct p; unfold relay, stream_gemini, stream_openai, relay_request, relay_lines in *;
    unfold send at 1; unfold bind at 1; unfold send at 1; unfold bind at 1;
    rewrite H; simpl negb; cbv iota; rewrite ?bind_assoc; reflexivity.
Qed.

(** C8, as the code has it. A [data: ] line whose payload [json.loads]
    rejects with [json.JSONDecodeError] (and that, for OpenAI, is not the
    sentinel) yields nothing and does not end the loop: the relay behaves
    as if the line were not there, so the frames of the lines before and
    after it come out in their order with nothing in between. *)
Theorem malformed_line_skipped
    (upstream : Http.request -> Http.response) (p : provider)
    (request : ChatRequest.t) (pre : list string) (line : string)
    (post : list string) :
  Py.startswith "data: " line = true ->
  json_loads (Py.drop 6 line) = Raise JSONDecodeError ->
  is_sentinel p line = false ->
  relay_lines json_loads json_dumps p [line] = ([], Ok tt)
  /\ relay_lines json_loads json_dumps p (pre ++ line :: post)
     = relay_lines json_loads json_dumps p (pre ++ post)
  /\ relay json_loads json_dumps config
           (fun r => with_lines (pre ++ line :: post) (upstream r)) p request
     = relay json_loads json_dumps config
             (fun r => with_lines (pre ++ post) (upstream r)) p request.
Proof.
  intros Hp Hl Hs. split; [| split].
  - pose proof (relay_lines_skip p [] line [] Hp Hl Hs) as H. simpl app in H.
    rewrite H. destruct p; reflexivity.
  - apply relay_lines_skip; assumption.
  - destruct (Z.eq_dec (Http.status_code (upstream (relay_request config p request))) 200)
      as [E | E].
    + rewrite !relay_ok_status by exact E. simpl Http.aiter_lines.
      rewrite relay_lines_skip by assumption. reflexivity.
    + rewrite !relay_error_status by exact E. reflexivity.
Qed.

(** C1, as the code has it. When the lines before the first sentinel are
    relayed without an exception, the loop stops at the sentinel: the lines
    after it stay unread and yield nothing, and the relay then yields one
    done frame after the frames of the lines before the sentinel. *)
Theorem done_sentinel_stops_reading
    (upstream : Http.request -> Http.response) (request : ChatRequest.t)
    (pre post : list string) (t : list effect) :
  Http.status_code (upstream (openai_request config request true)) = 200%Z ->
  ~ In done_line pre ->
  openai_lines json_loads json_dumps pre = (t, Ok []) ->
  openai_lines json_loads json_dumps (pre ++ done_line :: post) = (t, Ok post)
  /\ stream_openai json_loads json_dumps config
       (fun r => with_lines (pre ++ done_line :: post) (upstream r)) request
     = ((Send (openai_request config request true) :: t ++ yields json_dumps [Done])%list,
        Ok tt).
Proof.
  intros Hs Hn Hpre.
  assert (L : openai_lines json_loads json_dumps (pre ++ done_line :: post) = (t, Ok post)).
  { revert t Hn Hpre. induction pre as [| a pre IH]; intros t Hn Hpre.
    - simpl in Hpre. injection Hpre as <-. reflexivity.
    - simpl app. simpl openai_lines in *.
      destruct (openai_line json_loads json_dumps a) as [ta [[|] | e]] eqn:Ea.
      + unfold bind in *.
        destruct (openai_lines json_loads json_dumps pre) as [t' r'] eqn:Epre.
        injection Hpre as <- ->.
        rewrite (IH t'); [reflexivity | | reflexivity].
        intros Hin. apply Hn. right. exact Hin.
      + exfalso. apply Hn. left. eapply openai_line_break. exact Ea.
      + discriminate. }
  split; [exact L |].
  unfold stream_openai. unfold send at 1. unfold bind at 1.
  simpl Http.status_code. apply Z.eqb_eq in Hs. rewrite Hs. simpl negb. cbv iota.
  simpl Http.aiter_lines. rewrite L. reflexivity.
Qed.

(** ** One decoded chunk *)

Lemma yields_app (es1 es2 : list event) :
  yields json_dumps (es1 ++ es2) = (yields json_dumps es1 ++ yields json_dumps es2)%list.
Proof. apply map_app. Qed.

Lemma gemini_stream_part_obj (m : list (string * json)) :
  gemini_stream_part json_dumps (JObj m)
  = (yields json_dumps (part_events (JObj m)), Ok tt).
Proof.
  unfold gemini_stream_part, part_events, part_thought, field_or, field.
  cbn [Py.get]. rewrite !bind_lift_ok.
  destruct (Py.assoc "text" m) as [text |]; destruct (Py.assoc "thought" m) as [flag |];
    cbn [Py.truthy]; repeat split_match; first [reflexivity | discriminate].
Qed.

Lemma gemini_stream_part_other (part : json) :
  is_obj part = false ->
  gemini_stream_part json_dumps part = ([], Raise AttributeError).
Proof. destruct part; try discriminate; reflexivity. Qed.

(** The loop over the parts yields the events of the parts it gets through,
    in their order; it stops at the first item that is no object. *)
Lemma gemini_parts_loop (items : list json) :
  match snd (for_each (gemini_stream_part json_dumps) items) with
  | Ok _ =>
    forallb is_obj items = true
    /\ fst (for_each (gemini_stream_part json_dumps) items)
       = yields json_dumps (flat_map part_events items)
  | Raise _ =>
    exists seen rest,
      items = (seen ++ rest)%list
      /\ fst (for_each (gemini_stream_part json_dumps) items)
         = yields json_dumps (flat_map part_events seen)
  end.
Proof.
  induction items as [| part items IH].
  - simpl. split; reflexivity.
  - simpl for_each. destruct (is_obj part) eqn:Ep.
    + destruct part; try discriminate. rewrite gemini_stream_part_obj.
      unfold bind.
      destruct (for_each (gemini_stream_part json_dumps) items) as [t [[] | e]];
        simpl in IH |- *.
      * destruct IH as [Ho IH]. rewrite Ho, IH. split; [reflexivity |].
        rewrite yields_app. reflexivity.
      * destruct IH as (seen & rest & -> & IH). exists (JObj members :: seen), rest.
        split; [reflexivity |]. simpl flat_map. rewrite yields_app, IH. reflexivity.
    + rewrite gemini_stream_part_other by exact Ep. simpl.
      exists [], (part :: items). split; reflexivity.
Qed.

Lemma gemini_parts_loop_strings (ss : list string) :
  for_each (gemini_stream_part json_dumps) (map JStr ss) = ([], Ok tt)
  \/ for_each (gemini_stream_part json_dumps) (map JStr ss) = ([], Raise AttributeError).
Proof. destruct ss; [left | right]; reflexivity. Qed.

Lemma gemini_chunk_parts_order (chunk : json) :
  parts_outcome json_dumps chunk (gemini_chunk_parts json_dumps chunk).
Proof.
  unfold gemini_chunk_parts.
  crack (parts_outcome json_dumps)
    ltac:(first [rewrite bind_lift_ok | rewrite bind_lift_raise]).
  all: unfold parts_outcome, gemini_parts, field; subst; recall; cbn [fst snd lift ret].
  all: try reflexivity.
  all: try (exists [], []; split; reflexivity).
  all: rewrite <- ?(map_map fst JStr).
  all: match goal with
       | |- context [for_each _ (map JStr ?ss)] =>
         destruct (gemini_parts_loop_strings ss) as [-> | ->]; simpl;
           [reflexivity | exists [], []; split; reflexivity]
       | |- context [for_each _ ?l] =>
         let L := fresh "L" in
         pose proof (gemini_parts_loop l) as L;
           destruct (snd (for_each (gemini_stream_part json_dumps) l));
           [apply L | exact L]
       end.
Qed.

Lemma gemini_chunk_usage_outcome (chunk : json) :
  usage_outcome json_dumps chunk (gemini_chunk_usage json_dumps chunk).
Proof.
  unfold gemini_chunk_usage, gemini_usage, usage_of.
  crack (usage_outcome json_dumps)
    ltac:(first [rewrite bind_lift_ok | rewrite bind_lift_raise]).
  all: unfold usage_outcome, usage_events, field_or, field; subst; recall.
  all: try reflexivity.
Qed.

(** *** Chunks of the provider's shape *)

Lemma gemini_parts_loop_shaped (items : list json) :
  forallb part_shaped items = true ->
  for_each (gemini_stream_part json_dumps) items
  = (yields json_dumps (flat_map part_events items), Ok tt).
Proof.
  induction items as [| part items IH]; intros H; [reflexivity |].
  simpl in H. apply andb_prop in H as [Hp Hi].
  unfold part_shaped in Hp. apply andb_prop in Hp as [Ho _].
  destruct part; try discriminate.
  simpl for_each. rewrite gemini_stream_part_obj, (IH Hi).
  unfold bind. simpl flat_map. rewrite yields_app. reflexivity.
Qed.

Lemma gemini_chunk_parts_shaped (chunk : json) :
  parts_shaped_outcome json_dumps chunk (gemini_chunk_parts json_dumps chunk).
Proof.
  unfold gemini_chunk_parts.
  crack (parts_shaped_outcome json_dumps)
    ltac:(first [rewrite bind_lift_ok | rewrite bind_lift_raise]).
  all: unfold parts_shaped_outcome, gemini_parts; unshape.
  all: try discriminate.
  all: try reflexivity.
  intros H. apply andb_prop in H as [H _]. apply gemini_parts_loop_shaped, H.
Qed.

Lemma gemini_chunk_usage_shaped (chunk : json) :
  usage_shaped_outcome json_dumps chunk (gemini_chunk_usage json_dumps chunk).
Proof.
  unfold gemini_chunk_usage, gemini_usage, usage_of.
  crack (usage_shaped_outcome json_dumps)
    ltac:(first [rewrite bind_lift_ok | rewrite bind_lift_raise]).
  all: unfold usage_shaped_outcome, usage_events; unshape.
  all: try discriminate.
  all: try reflexivity.
  all: rewrite ?andb_false_r; try discriminate.
Qed.

Lemma gemini_chunk_shaped (chunk : json) :
  gemini_shaped chunk = true ->
  gemini_chunk json_dumps chunk = (yields json_dumps (gemini_chunk_events chunk), Ok tt).
Proof.
  intros H. unfold gemini_chunk, gemini_chunk_events.
  rewrite (gemini_chunk_parts_shaped chunk H), (gemini_chunk_usage_shaped chunk H).
  unfold bind. rewrite yields_app. reflexivity.
Qed.

(** C10. On a chunk of Gemini's shape the decode step returns, having
    yielded the events of the parts in the order of the parts array and,
    after all of them, the usage event of the chunk's usageMetadata.  On
    any chunk: when the step returns, it has yielded just that; when it
    raises, it has yielded the events of the parts it got through, in that
    order, and no usage event. *)
Theorem gemini_chunk_order (chunk : json) :
  (gemini_shaped chunk = true ->
   gemini_chunk json_dumps chunk
   = (yields json_dumps (flat_map part_events (gemini_parts chunk) ++ usage_events chunk),
      Ok tt))
  /\ match snd (gemini_chunk json_dumps chunk) with
     | Ok _ =>
       fst (gemini_chunk json_dumps chunk)
       = yields json_dumps (flat_map part_events (gemini_parts chunk) ++ usage_events chunk)
     | Raise _ =>
       exists seen rest,
         gemini_parts chunk = (seen ++ rest)%list
         /\ fst (gemini_chunk json_dumps chunk)
            = yields json_dumps (flat_map part_events seen)
     end.
Proof.
  split; [exact (gemini_chunk_shaped chunk) |].
  pose proof (gemini_chunk_parts_order chunk) as P.
  pose proof (gemini_chunk_usage_outcome chunk) as U.
  unfold gemini_chunk, parts_outcome, usage_outcome, bind in *.
  destruct (gemini_chunk_parts json_dumps chunk) as [t1 [[] | e1]]; simpl in P.
  - destruct (gemini_chunk_usage json_dumps chunk) as [t2 [[] | e2]]; simpl in U |- *.
    + rewrite yields_app, P, U. reflexivity.
    + exists (gemini_parts chunk), []. rewrite app_nil_r, U, app_nil_r.
      split; [reflexivity | exact P].
  - exact P.
Qed.

Lemma openai_chunk_shaped (chunk : json) :
  openai_shaped_outcome json_dumps chunk (openai_chunk json_dumps chunk).
Proof.
  unfold openai_chunk.
  crack (openai_shaped_outcome json_dumps)
    ltac:(first [rewrite bind_lift_ok | rewrite bind_lift_raise]).
  all: unfold openai_shaped_outcome, openai_chunk_events, openai_delta_content; unshape.
  all: try discriminate.
  all: try reflexivity.
  all: intros _; cbn [Py.truthy];
    match goal with E : ?x = _ |- context [?x] => rewrite E end; reflexivity.
Qed.

(** C2, as the code has it. On a chunk of the provider's shape the decode
    step returns after yielding: for Gemini, one content event per part
    without thought flag and one thinking event per part with it, for the
    parts whose text is not empty and in their order, then a usage event
    with the chunk's own counts when the chunk holds usageMetadata; for
    OpenAI, one content event when the delta's content is not empty, and
    nothing else, whatever usage the chunk reports. *)
Theorem decode_step_events (p : provider) (chunk : json) :
  shaped p chunk = true ->
  decode_step json_dumps p chunk = (yields json_dumps (chunk_events p chunk), Ok tt)
  /\ existsb is_usage_event (chunk_events OpenAI chunk) = false.
Proof.
  intros H. split.
  - destruct p; [apply gemini_chunk_shaped | apply openai_chunk_shaped]; exact H.
  - unfold chunk_events, openai_chunk_events.
    destruct (Py.truthy (openai_delta_content chunk)); reflexivity.
Qed.

(** ** The single-shot Gemini response *)

Lemma concat_cons (x : string) (l : list string) :
  String.concat "" (x :: l) = x ++ String.concat "" l.
Proof.
  destruct l; simpl; [| reflexivity].
  induction x; simpl; [| rewrite <- IHx]; reflexivity.
Qed.

Lemma append_assoc (a b c : string) : (a ++ b) ++ c = a ++ (b ++ c).
Proof. induction a; simpl; [| rewrite IHa]; reflexivity. Qed.

Lemma append_nil_r (a : string) : a ++ "" = a.
Proof. induction a; simpl; [| rewrite IHa]; reflexivity. Qed.

Lemma filter_none (A : Type) (f : A -> bool) (l : list A) :
  existsb f l = false -> filter f l = [].
Proof.
  induction l as [| x l IH]; simpl; [reflexivity |].
  destruct (f x); [discriminate | exact IH].
Qed.

Lemma gemini_collect_part_shaped (part : json) (content : string)
    (thinking : option string) :
  part_shaped part = true ->
  gemini_collect_part (content, thinking) part
  = Ok (if part_thought part
        then (content, Some (or_empty thinking ++ part_text part))
        else (content ++ part_text part, thinking)).
Proof.
  unfold part_shaped. intros H. apply andb_prop in H as [Ho Ht].
  destruct part; try discriminate.
  unfold gemini_collect_part, part_thought, part_text, field, absent_or in *.
  cbn [Py.get and_then].
  destruct (Py.assoc "thought" members) as [flag |];
    destruct (Py.assoc "text" members) as [[] |]; try discriminate;
    cbn [Py.truthy Py.str_add and_then]; try destruct (Py.truthy flag); reflexivity.
Qed.

(** The loop of [call_gemini] over parts of the expected shape. *)
Lemma gemini_collect_shaped (parts : list json) (content : string)
    (thinking : option string) :
  forallb part_shaped parts = true ->
  gemini_collect parts (content, thinking)
  = Ok (content
          ++ String.concat "" (map part_text (filter (fun p => negb (part_thought p)) parts)),
        if existsb part_thought parts
        then Some (or_empty thinking
                     ++ String.concat "" (map part_text (filter part_thought parts)))
        else thinking).
Proof.
  revert content thinking.
  induction parts as [| part parts IH]; intros content thinking H.
  - simpl. rewrite append_nil_r. reflexivity.
  - simpl in H. apply andb_prop in H as [Hp Hi].
    cbn [gemini_collect]. rewrite (gemini_collect_part_shaped _ _ _ Hp).
    cbn [and_then]. simpl existsb. simpl filter.
    destruct (part_thought part); cbn [negb orb]; rewrite (IH _ _ Hi).
    + simpl map. rewrite concat_cons. cbn [or_empty].
      destruct (existsb part_thought parts) eqn:Ex.
      * rewrite append_assoc. reflexivity.
      * rewrite (filter_none _ _ Ex). simpl. rewrite append_nil_r. reflexivity.
    + simpl map. rewrite concat_cons, append_assoc. reflexivity.
Qed.

Lemma gemini_parse_parts_shaped (data : json) :
  parse_parts_outcome data (gemini_parse_parts data).
Proof.
  unfold gemini_parse_parts.
  crack parse_parts_outcome
    ltac:(first [rewrite bind_lift_ok | rewrite bind_lift_raise]).
  all: unfold parse_parts_outcome, spec_content, spec_thinking_content, gemini_parts;
    unshape.
  all: try discriminate.
  all: try reflexivity.
  intros H. apply andb_prop in H as [H _]. apply gemini_collect_shaped, H.
Qed.

Lemma gemini_parse_usage_shaped (data : json) :
  parse_usage_outcome data (gemini_parse_usage data).
Proof.
  unfold gemini_parse_usage, gemini_usage, usage_of.
  crack parse_usage_outcome
    ltac:(first [rewrite bind_lift_ok | rewrite bind_lift_raise]).
  all: unfold parse_usage_outcome, spec_gemini_usage, spec_usage; unshape;
    cbn [option_map]; unfold field_or, field; recall.
  all: try discriminate.
  all: try reflexivity.
  all: rewrite ?andb_false_r; try discriminate.
Qed.

(** C6. On a Gemini response of the expected shape, [call_gemini] parses
    the content as the texts of the parts without thought flag, in order;
    the thinking content as the texts of the parts with the flag, present as
    soon as there is one such part and absent otherwise; the usage as the
    three counts of usageMetadata, present exactly when usageMetadata is.
    Without candidates the content is empty.  On the response with the parts
    [{"thought": true, "text": "A"}] and [{"text": "B"}] the content is "B"
    and the thinking content is "A". *)
Theorem gemini_parse_single_response (data : json) :
  gemini_shaped data = true ->
  gemini_parse data
  = Ok {| ChatResponse.content := spec_content data;
          ChatResponse.thinking_content := spec_thinking_content data;
          ChatResponse.usage := spec_gemini_usage data |}
  /\ match field "candidates" data with
     | None => spec_content data = ""
     | Some _ => True
     end
  /\ match field "usageMetadata" data with
     | None => spec_gemini_usage data = None
     | Some meta =>
       spec_gemini_usage data
       = Some (usage_dict (field_or "promptTokenCount" (JInt 0) meta)
                          (field_or "candidatesTokenCount" (JInt 0) meta)
                          (field_or "totalTokenCount" (JInt 0) meta))
     end
  /\ gemini_parse Sample.two_parts
     = Ok {| ChatResponse.content := "B";
             ChatResponse.thinking_content := Some "A";
             ChatResponse.usage := None |}.
Proof.
  intros H. split; [| split; [| split]].
  - unfold gemini_parse.
    rewrite (gemini_parse_parts_shaped data H), (gemini_parse_usage_shaped data H).
    reflexivity.
  - unfold spec_content, gemini_parts.
    destruct (field "candidates" data); [exact I | reflexivity].
  - unfold spec_gemini_usage. destruct (field "usageMetadata" data); reflexivity.
  - reflexivity.
Qed.

(** ** Error frames *)

Lemma length_append (a b : string) :
  String.length (a ++ b) = String.length a + String.length b.
Proof. induction a; simpl; [| rewrite IHa]; reflexivity. Qed.

Lemma needs_escape_not_raw (c : ascii) : needs_escape c = true -> raw_char c = false.
Proof.
  unfold needs_escape, raw_char, code_in. simpl existsb.
  destruct (N.eqb_spec (N_of_ascii c) 34) as [-> |]; [reflexivity |].
  destruct (N.eqb_spec (N_of_ascii c) 92) as [-> |]; [reflexivity |].
  destruct (N.eqb_spec (N_of_ascii c) 10) as [-> |]; [reflexivity | discriminate].
Qed.

Lemma all_raw_none_needs_escape (s : string) :
  all_chars raw_char s = true -> any_char needs_escape s = false.
Proof.
  induction s as [| c s IH]; simpl; [reflexivity |].
  intros H. apply andb_prop in H as [Hc Hs]. rewrite (IH Hs), orb_false_r.
  destruct (needs_escape c) eqn:E; [| reflexivity].
  rewrite (needs_escape_not_raw c E) in Hc. discriminate.
Qed.

(** A literal is never shorter than the string it denotes, and as long only
    when every character stands for itself. *)
Lemma string_body_length (lit s : string) :
  string_body lit s ->
  String.length s <= String.length lit
  /\ (String.length lit <= String.length s -> lit = s /\ all_chars raw_char s = true).
Proof.
  induction 1 as [| c lit s Hc _ [IH1 IH2] | e c lit s He _ [IH1 IH2]
                  | h1 h2 h3 h4 u lit s _ _ _ _ Hu _ [IH1 IH2]].
  - split; [reflexivity | intros _; split; reflexivity].
  - simpl. split; [lia |]. intros L. destruct IH2 as [-> Hr]; [lia |].
    rewrite Hc, Hr. split; reflexivity.
  - simpl. split; [lia |]. intros L. lia.
  - rewrite length_append. simpl. split; [lia |]. intros L. lia.
Qed.

Lemma spaced_not_ws (K : string -> Prop) (c : ascii) (t : string) :
  is_ws c = false -> spaced K (String c t) -> K (String c t).
Proof.
  intros Hc H. inversion H as [t0 HK | c0 t0 Hws _]; subst; [exact HK |].
  rewrite Hc in Hws. discriminate.
Qed.

Lemma symbol_cons (K : string -> Prop) (c d : ascii) (t : string) :
  symbol c K (String d t) -> c = d /\ K t.
Proof. intros (t' & E & HK). injection E as <- <-. split; [reflexivity | exact HK]. Qed.

Lemma symbol_length (K : string -> Prop) (c : ascii) (t : string) :
  spaced (symbol c K) t -> 1 <= String.length t.
Proof.
  induction 1 as [t (t' & -> & _) | d t _ _ IH]; simpl; lia.
Qed.

(** A literal made of characters that stand for themselves is read back
    as it is, up to its closing quote. *)
Lemma string_body_raw_prefix (x : string) :
  all_chars raw_char x = true ->
  forall lit s t t',
    string_body lit s ->
    lit ++ dq ++ t = x ++ dq ++ t' ->
    lit = x /\ t = t'.
Proof.
  induction x as [| c x IH]; intros Hx lit s t t' Hb E.
  - inversion Hb as [| c0 lit0 s0 Hc _ | |]; subst; simpl in E.
    + injection E as ->. split; reflexivity.
    + injection E as -> _. discriminate.
    + injection E as E _. discriminate.
    + injection E as E _. discriminate.
  - simpl in Hx. apply andb_prop in Hx as [Hc Hx].
    inversion Hb as [| c0 lit0 s0 Hc0 Hb0 | |]; subst; simpl in E.
    + injection E as <- _. discriminate.
    + injection E as <- E. destruct (IH Hx _ _ _ _ Hb0 E) as [-> ->].
      split; reflexivity.
    + injection E as <- _. discriminate.
    + injection E as <- _. discriminate.
Qed.

Lemma error_payload_not_json (b : string) :
  any_char needs_escape b = true -> ~ error_object_text (error_payload b) b.
Proof.
  intros Hb H. unfold error_object_text, error_payload in H. simpl in H.
  apply spaced_not_ws in H; [| reflexivity].
  apply symbol_cons in H as [_ H].
  apply spaced_not_ws in H; [| reflexivity].
  destruct H as (key & t1 & E1 & Hkey & H).
  injection E1 as E1.
  destruct (@string_body_raw_prefix "error" eq_refl key "error" t1
              (": " ++ dq ++ b ++ dq ++ "}") Hkey (eq_sym E1)) as [_ ->].
  apply spaced_not_ws in H; [| reflexivity].
  apply symbol_cons in H as [_ H].
  inversion H as [t0 HK | c0 t0 _ H']; subst.
  { destruct HK as (lit & t2 & E2 & _). discriminate. }
  clear H. apply spaced_not_ws in H'; [| reflexivity].
  destruct H' as (lit & t2 & E2 & Hlit & H). injection E2 as E2.
  apply symbol_length in H.
  apply (f_equal String.length) in E2. rewrite !length_append in E2. simpl in E2.
  destruct (string_body_length Hlit) as [_ L]. destruct L as [_ L]; [lia |].
  rewrite (all_raw_none_needs_escape b L) in Hb. discriminate.
Qed.

(** A message without quote, backslash or control character is carried
    faithfully: the grammar is not empty. *)
Lemma error_payload_json (b : string) :
  all_chars raw_char b = true -> error_object_text (error_payload b) b.
Proof.
  intros Hb.
  assert (B : forall s, all_chars raw_char s = true -> string_body s s).
  { induction s as [| c s IH]; simpl; intros H; [constructor |].
    apply andb_prop in H as [Hc Hs]. constructor; [exact Hc | exact (IH Hs)]. }
  unfold error_object_text, error_payload.
  apply spaced_here. exists (dq ++ "error" ++ dq ++ ": " ++ dq ++ b ++ dq ++ "}").
  split; [reflexivity |].
  apply spaced_here. exists "error", (": " ++ dq ++ b ++ dq ++ "}").
  split; [reflexivity |]. split; [apply B; reflexivity |].
  apply spaced_here. exists (" " ++ dq ++ b ++ dq ++ "}"). split; [reflexivity |].
  apply spaced_skip; [reflexivity |].
  apply spaced_here. exists b, "}". split; [reflexivity |]. split; [exact (B b Hb) |].
  apply spaced_here. exists "". split; [reflexivity |].
  apply spaced_here. reflexivity.
Qed.

Lemma error_frame_payload (b : string) :
  frame json_dumps (Error b) = "data: " ++ error_payload b ++ nl ++ nl.
Proof.
  unfold frame, error_payload, q. simpl. rewrite !append_assoc. reflexivity.
Qed.

(** C9. An error frame is the text [data: {"error": "] followed by the
    message as it is, then ["}] and a blank line: so is the frame of a relay
    whose upstream answers with another status than 200 (the message is the
    decoded body) and the frame of [chat_stream] for a missing key.  No
    escaping is applied: when the message holds a double quote, a backslash
    or a line feed, what follows [data: ] is no JSON text of the object whose
    error member is the message. *)
Theorem error_frame_verbatim
    (upstream : Http.request -> Http.response) (p : provider)
    (request : ChatRequest.t) (b : string) :
  frame json_dumps (Error b) = "data: " ++ error_payload b ++ nl ++ nl
  /\ (Http.status_code (upstream (relay_request config p request)) <> 200%Z ->
      Utf8.decode (Http.aread (upstream (relay_request config p request))) = Ok b ->
      frames (fst (relay json_loads json_dumps config upstream p request))
      = ["data: " ++ error_payload b ++ nl ++ nl])
  /\ (configured_key config request = Some "" ->
      exists detail,
        frames (fst (chat_stream json_loads json_dumps config upstream request))
        = ["data: " ++ error_payload detail ++ nl ++ nl])
  /\ (any_char needs_escape b = true -> ~ error_object_text (error_payload b) b).
Proof.
  split; [apply error_frame_payload |]. split; [| split].
  - intros Hs Hd. rewrite (relay_error_status upstream p request Hs), Hd.
    unfold send, emit, yield, lift, bind. cbn [fst frames app].
    rewrite error_frame_payload. reflexivity.
  - intros Hk. destruct (missing_key upstream request Hk) as (detail & _ & ->).
    exists detail. unfold yields. cbn [fst frames map].
    rewrite error_frame_payload. reflexivity.
  - apply error_payload_not_json.
Qed.

(** ** Further properties of the relay *)

(** X1. A relay whose upstream answers 200 and whose loop over the lines
    returns ends with one done frame, after the frames of the lines. *)
Theorem end_of_stream_done
    (upstream : Http.request -> Http.response) (p : provider)
    (request : ChatRequest.t) (t : list effect) :
  Http.status_code (upstream (relay_request config p request)) = 200%Z ->
  relay_lines json_loads json_dumps p
    (Http.aiter_lines (upstream (relay_request config p request))) = (t, Ok tt) ->
  relay json_loads json_dumps config upstream p request
  = ((Send (relay_request config p request) :: t ++ yields json_dumps [Done])%list, Ok tt).
Proof.
  intros Hs Hl. rewrite (relay_ok_status upstream p request Hs), Hl. reflexivity.
Qed.

(** X2. A line that does not start with [data: ] is passed over: the relay
    behaves as if the line were not there. *)
Theorem other_line_ignored
    (upstream : Http.request -> Http.response) (p : provider)
    (request : ChatRequest.t) (pre : list string) (line : string)
    (post : list string) :
  Py.startswith "data: " line = false ->
  relay_lines json_loads json_dumps p [line] = ([], Ok tt)
  /\ relay json_loads json_dumps config
           (fun r => with_lines (pre ++ line :: post) (upstream r)) p request
     = relay json_loads json_dumps config
             (fun r => with_lines (pre ++ post) (upstream r)) p request.
Proof.
  intros Hp.
  assert (H : passed_over json_loads json_dumps p line).
  { destruct p; simpl; unfold gemini_line, openai_line; rewrite Hp; reflexivity. }
  split.
  - pose proof (relay_lines_pass p [] line [] H) as E. simpl app in E.
    rewrite E. destruct p; reflexivity.
  - destruct (Z.eq_dec (Http.status_code (upstream (relay_request config p request))) 200)
      as [E | E].
    + rewrite !relay_ok_status by exact E. simpl Http.aiter_lines.
      rewrite relay_lines_pass by exact H. reflexivity.
    + rewrite !relay_error_status by exact E. reflexivity.
Qed.

(** X3. In the body of both OpenAI requests, the entry of every message
    carries the role "assistant" when the message's role is "model" and the
    message's own role otherwise, in the order of the messages. *)
Theorem openai_wire_roles (request : ChatRequest.t) (streaming : bool) :
  exists messages,
    field "messages" (Http.body (openai_request config request streaming))
    = Some (JArr messages)
    /\ map (field "role") messages
       = map (fun msg =>
                Some (JStr (if string_dec (Message.role msg) "model"
                            then "assistant" else Message.role msg)))
             (ChatRequest.messages request).
Proof.
  exists (openai_messages (ChatRequest.messages request)). split; [reflexivity |].
  unfold openai_messages. rewrite fold_left_snoc. simpl app.
  rewrite map_map. apply map_ext.
  intros msg. simpl. unfold openai_role.
  destruct (string_dec (Message.role msg) "model") as [-> | H]; [reflexivity |].
  apply String.eqb_neq in H. rewrite H. reflexivity.
Qed.

(** X4. An error frame carries its message faithfully when the message
    holds no double quote, no backslash and no control character: what
    follows [data: ] is then a JSON text of the object whose error member is
    the message. *)
Theorem error_frame_plain_message (b : string) :
  all_chars raw_char b = true ->
  frame json_dumps (Error b) = "data: " ++ error_payload b ++ nl ++ nl
  /\ error_object_text (error_payload b) b.
Proof.
  intros H. split; [apply error_frame_payload | apply error_payload_json, H].
Qed.

End Claims.

(** * Further properties of the proxy *)

Section More.

Variable json_loads : string -> result json.
Variable json_dumps : json -> string.
Variable config : Config.t.

(** ** What a run sends and yields *)

Lemma emits_ret (p : provider) (A : Type) (a : A) : emits json_dumps p (ret a).
Proof. exists []. split; reflexivity. Qed.

Lemma emits_lift (p : provider) (A : Type) (r : result A) : emits json_dumps p (lift r).
Proof. exists []. split; reflexivity. Qed.

Lemma emits_emit (p : provider) (e : event) :
  streamed p e = true -> emits json_dumps p (emit json_dumps e).
Proof. intros H. exists [e]. simpl. rewrite H. split; reflexivity. Qed.

Lemma emits_bind (p : provider) (A B : Type) (m : M A) (k : A -> M B) :
  emits json_dumps p m -> (forall a, emits json_dumps p (k a)) ->
  emits json_dumps p (bind m k).
Proof.
  intros (es & Hes & Hm) Hk. destruct m as [t [a | e]]; simpl in Hm; subst t.
  - destruct (Hk a) as (es' & Hes' & Hk'). unfold bind.
    destruct (k a) as [t' r]. simpl in Hk'. subst t'.
    exists (es ++ es')%list. rewrite forallb_app, Hes, Hes'.
    split; [reflexivity |]. simpl. symmetry. apply yields_app.
  - exists es. split; [exact Hes | reflexivity].
Qed.

Lemma emits_except (p : provider) (m : M unit) :
  emits json_dumps p m -> emits json_dumps p (except_JSONDecodeError_pass m).
Proof.
  intros (es & Hes & Hm). exists es. split; [exact Hes |].
  destruct m as [t [[] | []]]; exact Hm.
Qed.

Lemma emits_for_each (p : provider) (A : Type) (body : A -> M unit) (l : list A) :
  (forall x, emits json_dumps p (body x)) -> emits json_dumps p (for_each body l).
Proof.
  intros H. induction l as [| x l IH]; simpl.
  - apply emits_ret.
  - apply emits_bind; [apply H | intros _; exact IH].
Qed.

Lemma gemini_chunk_emits (chunk : json) :
  emits json_dumps Gemini (gemini_chunk json_dumps chunk).
Proof.
  unfold gemini_chunk, gemini_chunk_parts, gemini_chunk_usage, gemini_stream_part.
  repeat first
    [ apply emits_ret
    | apply emits_lift
    | apply emits_bind; [| intros ?]
    | apply emits_for_each; intros ?
    | match goal with
      | |- emits _ _ (match ?c with _ => _ end) =>
        let E := fresh "E" in destruct c eqn:E
      end
    | apply emits_emit; simpl; assumption
    | apply emits_emit; reflexivity
    | apply emits_emit;
      match goal with |- context [if ?c then _ else _] => destruct c end;
      simpl; assumption ].
Qed.

Lemma openai_chunk_emits (chunk : json) :
  emits json_dumps OpenAI (openai_chunk json_dumps chunk).
Proof.
  unfold openai_chunk.
  repeat first
    [ apply emits_ret
    | apply emits_lift
    | apply emits_bind; [| intros ?]
    | match goal with
      | |- emits _ _ (match ?c with _ => _ end) =>
        let E := fresh "E" in destruct c eqn:E
      end
    | apply emits_emit; simpl; assumption ].
Qed.

Lemma relay_lines_emits (p : provider) (lines : list string) :
  emits json_dumps p (relay_lines json_loads json_dumps p lines).
Proof.
  destruct p; unfold relay_lines.
  - apply emits_for_each. intros line. unfold gemini_line.
    destruct (Py.startswith "data: " line); [| apply emits_ret].
    apply emits_except, emits_bind; [apply emits_lift | apply gemini_chunk_emits].
  - apply emits_bind; [| intros _; apply emits_ret].
    induction lines as [| line lines IH]; simpl; [apply emits_ret |].
    apply emits_bind.
    + unfold openai_line.
      destruct (Py.startswith "data: " line); [| apply emits_ret].
      destruct (String.eqb (Py.drop 6 line) "[DONE]"); [apply emits_ret |].
      apply emits_bind; [| intros _; apply emits_ret].
      apply emits_except, emits_bind; [apply emits_lift | apply openai_chunk_emits].
    + intros [|]; [exact IH | apply emits_ret].
Qed.

(** X5. Every run of a relay whose request the client can write out (a
    finite temperature) and the upstream answers sends that one request
    before it yields anything.  While it reads it yields only content
    events, and for Gemini thinking and usage events, none with an empty
    text.  A terminal event comes last or not at all: when the relay
    returns, its events end with one done event or are a single error
    event; when it raises, it has yielded neither. *)
Theorem relay_trace_shape
    (upstream : Http.request -> Http.response) (p : provider)
    (request : ChatRequest.t) :
  serialisable request = true ->
  exists es,
    forallb (streamed p) es = true
    /\ match snd (relay json_loads json_dumps config upstream p request) with
       | Ok _ =>
         fst (relay json_loads json_dumps config upstream p request)
         = Send (relay_request config p request) :: yields json_dumps (es ++ [Done])
         \/ exists b,
              fst (relay json_loads json_dumps config upstream p request)
              = Send (relay_request config p request) :: yields json_dumps [Error b]
       | Raise _ =>
         fst (relay json_loads json_dumps config upstream p request)
         = Send (relay_request config p request) :: yields json_dumps es
       end.
Proof.
  intros _.
  destruct (Z.eq_dec (Http.status_code (upstream (relay_request config p request))) 200)
    as [E | E].
  - rewrite (relay_ok_status json_loads json_dumps config upstream p request E).
    destruct (relay_lines_emits p
                (Http.aiter_lines (upstream (relay_request config p request))))
      as (es & Hes & Ht).
    exists es. split; [exact Hes |].
    unfold send, bind, emit, yield.
    destruct (relay_lines json_loads json_dumps p _) as [t [[] | e]];
      simpl in Ht; subst t; simpl.
    + left. rewrite yields_app. reflexivity.
    + reflexivity.
  - rewrite (relay_error_status json_loads json_dumps config upstream p request E).
    exists []. split; [reflexivity |].
    destruct (Utf8.decode _) as [b | e]; simpl.
    + right. exists b. reflexivity.
    + reflexivity.
Qed.

Lemma requests_yields (es : list event) : requests (yields json_dumps es) = [].
Proof. induction es as [| e es IH]; simpl; [reflexivity | exact IH]. Qed.

Lemma frames_yields (es : list event) :
  frames (yields json_dumps es) = map (frame json_dumps) es.
Proof. induction es as [| e es IH]; simpl; [| rewrite IH]; reflexivity. Qed.

Lemma relay_trace
    (upstream : Http.request -> Http.response) (p : provider)
    (request : ChatRequest.t) :
  exists es,
    fst (relay json_loads json_dumps config upstream p request)
    = Send (relay_request config p request) :: yields json_dumps es.
Proof.
  destruct (Z.eq_dec (Http.status_code (upstream (relay_request config p request))) 200)
    as [E | E].
  - rewrite (relay_ok_status json_loads json_dumps config upstream p request E).
    destruct (relay_lines_emits p
                (Http.aiter_lines (upstream (relay_request config p request))))
      as (es & _ & Ht).
    unfold send, bind, emit, yield.
    destruct (relay_lines json_loads json_dumps p _) as [t [[] | e]];
      simpl in Ht; subst t; simpl.
    + exists (es ++ [Done])%list. rewrite yields_app. reflexivity.
    + exists es. reflexivity.
  - rewrite (relay_error_status json_loads json_dumps config upstream p request E).
    destruct (Utf8.decode _) as [b | e]; simpl.
    + exists [Error b]. reflexivity.
    + exists []. reflexivity.
Qed.

Lemma call_trace
    (upstream : Http.request -> Http.response) (p : provider)
    (request : ChatRequest.t) :
  fst (call config upstream p request) = [Send (call_request config p request)].
Proof.
  destruct p; unfold call, call_gemini, call_openai, call_request, send, bind, raise, lift;
    (destruct (negb _); [reflexivity |]); destruct (Http.json_ _); reflexivity.
Qed.

(** The routes hand a request that names a provider with a key to that
    provider's call and relay. *)
Lemma dispatch_call
    (upstream : Http.request -> Http.response) (request : ChatRequest.t)
    (p : provider) :
  selected config request = Some p ->
  chat config upstream request = call config upstream p request.
Proof.
  unfold selected, chat. intros H.
  destruct (String.eqb (Py.lower (ChatRequest.provider request)) "gemini").
  - destruct (String.eqb (Config.GEMINI_API_KEY config) ""); [discriminate |].
    injection H as <-. reflexivity.
  - destruct (String.eqb (Py.lower (ChatRequest.provider request)) "openai");
      [| discriminate].
    destruct (String.eqb (Config.OPENAI_API_KEY config) ""); [discriminate |].
    injection H as <-. reflexivity.
Qed.

Lemma dispatch_relay
    (upstream : Http.request -> Http.response) (request : ChatRequest.t)
    (p : provider) :
  selected config request = Some p ->
  chat_stream json_loads json_dumps config upstream request
  = relay json_loads json_dumps config upstream p request.
Proof.
  unfold selected, chat_stream. intros H.
  destruct (String.eqb (Py.lower (ChatRequest.provider request)) "gemini").
  - destruct (String.eqb (Config.GEMINI_API_KEY config) ""); [discriminate |].
    injection H as <-. reflexivity.
  - destruct (String.eqb (Py.lower (ChatRequest.provider request)) "openai");
      [| discriminate].
    destruct (String.eqb (Config.OPENAI_API_KEY config) ""); [discriminate |].
    injection H as <-. reflexivity.
Qed.

Lemma not_selected
    (upstream : Http.request -> Http.response) (request : ChatRequest.t) :
  selected config request = None ->
  fst (chat config upstream request) = []
  /\ exists detail,
       fst (chat_stream json_loads json_dumps config upstream request)
       = yields json_dumps [Error detail].
Proof.
  unfold selected, chat, chat_stream. intros H.
  destruct (String.eqb (Py.lower (ChatRequest.provider request)) "gemini").
  - destruct (String.eqb (Config.GEMINI_API_KEY config) ""); [| discriminate].
    split; [reflexivity |]. exists gemini_key_missing. reflexivity.
  - destruct (String.eqb (Py.lower (ChatRequest.provider request)) "openai").
    + destruct (String.eqb (Config.OPENAI_API_KEY config) ""); [| discriminate].
      split; [reflexivity |]. exists openai_key_missing. reflexivity.
    + split; [reflexivity |].
      exists (unsupported (ChatRequest.provider request)). reflexivity.
Qed.

(** X6. A run of either route whose request the client can write out (a
    finite temperature) and the upstream answers sends one upstream
    request, the one built for the provider the request names (in any
    letter case), when that provider's key is set: no route retries.  A
    request that names no provider whose key is set never reaches a
    provider, whatever its temperature.  [chat] yields nothing. *)
Theorem upstream_requests
    (upstream : Http.request -> Http.response) (request : ChatRequest.t) :
  (serialisable request = true ->
   requests (fst (chat config upstream request))
   = match selected config request with
     | Some p => [call_request config p request]
     | None => []
     end
   /\ requests (fst (chat_stream json_loads json_dumps config upstream request))
      = match selected config request with
        | Some p => [relay_request config p request]
        | None => []
        end)
  /\ (selected config request = None ->
      requests (fst (chat config upstream request)) = []
      /\ requests (fst (chat_stream json_loads json_dumps config upstream request)) = [])
  /\ frames (fst (chat config upstream request)) = [].
Proof.
  destruct (selected config request) as [p |] eqn:E.
  - rewrite (dispatch_call upstream request E), (dispatch_relay upstream request E).
    rewrite call_trace. destruct (relay_trace upstream p request) as (es & ->).
    simpl. rewrite requests_yields.
    split; [intros _; split; reflexivity |]. split; [discriminate | reflexivity].
  - destruct (not_selected upstream request E) as [-> (detail & ->)].
    split; [intros _; split; reflexivity |].
    split; [intros _; split; reflexivity | reflexivity].
Qed.

(** X7. A single-shot call whose upstream answers with another status
    than 200 sends its one request and raises an HTTP exception with that
    status and the text of the response, without reading the response as
    JSON. *)
Theorem call_error_status
    (upstream : Http.request -> Http.response) (p : provider)
    (request : ChatRequest.t) :
  Http.status_code (upstream (call_request config p request)) <> 200%Z ->
  call config upstream p request
  = ([Send (call_request config p request)],
     Raise (HTTPException (Http.status_code (upstream (call_request config p request)))
                          (Http.text (upstream (call_request config p request))))).
Proof.
  intros H. apply Z.eqb_neq in H.
  destruct p; unfold call, call_gemini, call_openai, call_request in *;
    unfold send, bind; rewrite H; reflexivity.
Qed.

(** ** Single-shot responses *)

Lemma openai_parse_shaped (data : json) :
  openai_parse_outcome data (openai_parse data).
Proof.
  unfold openai_parse, openai_usage, usage_of.
  crack openai_parse_outcome fail.
  all: unfold openai_parse_outcome, spec_response; unshape_response.
  all: try discriminate.
  all: try reflexivity.
  all: rewrite ?andb_false_r; try discriminate.
  all: repeat first
         [ progress cbn [and_then Py.get validate_str andb]
         | match goal with
           | |- context [match ?x with _ => _ end] => is_var x; destruct x
           | |- context [Py.assoc ?k ?m] =>
             let E := fresh "E" in destruct (Py.assoc k m) eqn:E
           end ].
  all: try discriminate.
  all: try reflexivity.
Qed.

Lemma parse_shaped (p : provider) (data : json) :
  response_shaped p data = true -> parse p data = Ok (spec_response p data).
Proof.
  destruct p; simpl; intros H.
  - unfold gemini_parse.
    rewrite (gemini_parse_parts_shaped data H), (gemini_parse_usage_shaped data H).
    reflexivity.
  - apply openai_parse_shaped, H.
Qed.

(** X8. On an OpenAI response of the expected shape, [call_openai] parses
    the content as the string at choices[0].message.content, the empty
    string when the choices, the message or its content are missing; it
    never sets a thinking content; the usage is the three counts of the
    usage object (0 for a missing count), present exactly when that object
    is. *)
Theorem openai_parse_single_response (data : json) :
  openai_response_shaped data = true ->
  openai_parse data
  = Ok {| ChatResponse.content := openai_response_text data;
          ChatResponse.thinking_content := None;
          ChatResponse.usage := spec_openai_usage data |}
  /\ match openai_message_content data with
     | Some (JStr s) => openai_response_text data = s
     | _ => openai_response_text data = ""
     end
  /\ match field "usage" data with
     | None => spec_openai_usage data = None
     | Some meta =>
       spec_openai_usage data
       = Some (usage_dict (field_or "prompt_tokens" (JInt 0) meta)
                          (field_or "completion_tokens" (JInt 0) meta)
                          (field_or "total_tokens" (JInt 0) meta))
     end.
Proof.
  intros H. split; [exact (openai_parse_shaped data H) |]. split.
  - unfold openai_response_text.
    destruct (openai_message_content data) as [[] |]; reflexivity.
  - unfold spec_openai_usage. destruct (field "usage" data); reflexivity.
Qed.

(** X9. End to end: for a request that names a provider (in any letter
    case) whose key is set, when the upstream answers 200 with a JSON
    document of that provider's shape, [chat] sends the one request built
    for that provider and returns the response parsed from the document. *)
Theorem chat_single_shot
    (upstream : Http.request -> Http.response) (request : ChatRequest.t)
    (p : provider) (data : json) :
  selected config request = Some p ->
  Http.status_code (upstream (call_request config p request)) = 200%Z ->
  Http.json_ (upstream (call_request config p request)) = Ok data ->
  response_shaped p data = true ->
  chat config upstream request
  = ([Send (call_request config p request)], Ok (spec_response p data)).
Proof.
  intros Hp Hs Hj Hd. rewrite (dispatch_call upstream request Hp).
  apply Z.eqb_eq in Hs. pose proof (parse_shaped p data Hd) as P.
  destruct p; unfold call, call_gemini, call_openai, call_request, parse in *;
    unfold send, bind; rewrite Hs; simpl negb; cbv iota; rewrite Hj;
    unfold lift; rewrite P; reflexivity.
Qed.

Lemma openai_parse_null (data : json) :
  openai_null_outcome data (openai_parse data).
Proof.
  unfold openai_parse, openai_usage, usage_of.
  crack openai_null_outcome fail.
  all: unfold openai_null_outcome; unshape_response.
  all: try discriminate.
  all: repeat first
         [ progress cbn [and_then Py.get validate_str andb]
         | match goal with
           | |- context [match ?x with _ => _ end] => is_var x; destruct x
           | |- context [Py.assoc ?k ?m] =>
             let E := fresh "E" in destruct (Py.assoc k m) eqn:E
           end ].
  all: try discriminate.
  all: intros H; try discriminate H; injection H as ->.
  all: intros H; try discriminate H; reflexivity.
Qed.

(** X10. A 200 OpenAI response whose choices[0].message.content is JSON
    null (as in a tool-call or refused completion) is not turned into a
    response: the content read with [.get("content", "")] is None, which
    the ChatResponse model rejects, so [call_openai] raises a validation
    error after its one upstream request. *)
Theorem openai_null_content_rejected
    (upstream : Http.request -> Http.response) (request : ChatRequest.t)
    (data : json) :
  Http.status_code (upstream (openai_request config request false)) = 200%Z ->
  Http.json_ (upstream (openai_request config request false)) = Ok data ->
  openai_message_content data = Some JNull ->
  absent_or is_obj (field "usage" data) = true ->
  call_openai config upstream request
  = ([Send (openai_request config request false)], Raise ValidationError).
Proof.
  intros Hs Hj Hc Hu. apply Z.eqb_eq in Hs.
  pose proof (openai_parse_null data Hc Hu) as P.
  unfold call_openai, send, bind. rewrite Hs. simpl negb. cbv iota.
  rewrite Hj. unfold lift. rewrite P. reflexivity.
Qed.

(** ** The loop over the lines, in two halves *)

Lemma relay_lines_app (p : provider) (l1 l2 : list string) :
  existsb (is_sentinel p) l1 = false ->
  relay_lines json_loads json_dumps p (l1 ++ l2)
  = (relay_lines json_loads json_dumps p l1 ;;
     relay_lines json_loads json_dumps p l2).
Proof.
  destruct p; intros H.
  - apply for_each_app.
  - induction l1 as [| a l1 IH].
    + simpl app. unfold relay_lines at 2. simpl openai_lines.
      rewrite !bind_ret_l. reflexivity.
    + simpl in H. apply orb_false_elim in H as [Ha Hl].
      simpl app. rewrite !relay_lines_openai_cons, bind_assoc.
      destruct (openai_line json_loads json_dumps a) as [t [[|] | e]] eqn:E.
      * unfold bind at 1 3. rewrite (IH Hl). reflexivity.
      * apply openai_line_break in E. subst a. discriminate Ha.
      * reflexivity.
Qed.

(** X11. The loop of a relay keeps nothing from one line to the next: over
    lines [l1 ++ l2], where [l1] holds no end-of-stream sentinel, it does
    what it does over [l1] and then, unless that raised, what it does over
    [l2]; the frames of [l1] are a prefix of the frames of the whole. *)
Theorem relay_lines_split (p : provider) (l1 l2 : list string) :
  existsb (is_sentinel p) l1 = false ->
  relay_lines json_loads json_dumps p (l1 ++ l2)
  = (relay_lines json_loads json_dumps p l1 ;;
     relay_lines json_loads json_dumps p l2)
  /\ exists t,
       fst (relay_lines json_loads json_dumps p (l1 ++ l2))
       = (fst (relay_lines json_loads json_dumps p l1) ++ t)%list.
Proof.
  intros H. rewrite (relay_lines_app p l1 l2 H). split; [reflexivity |].
  destruct (relay_lines json_loads json_dumps p l1) as [t1 [[] | e]]; unfold bind.
  - destruct (relay_lines json_loads json_dumps p l2) as [t2 r2].
    exists t2. reflexivity.
  - exists []. simpl. rewrite app_nil_r. reflexivity.
Qed.

(** ** The request bodies *)

Lemma openai_messages_map (msgs : list Message.t) :
  openai_messages msgs = map openai_message msgs.
Proof. unfold openai_messages. apply fold_left_snoc. Qed.

(** X12. Every request body, single-shot or streaming, carries the
    conversation as it came: one entry per message, in message order, whose
    text is the message's content; no message is dropped, merged or
    rewritten, whatever its role. *)
Theorem request_carries_messages (p : provider) (request : ChatRequest.t) :
  wire_texts p (Http.body (call_request config p request))
  = Some (map (fun msg => Some (JStr (Message.content msg)))
              (ChatRequest.messages request))
  /\ wire_texts p (Http.body (relay_request config p request))
     = Some (map (fun msg => Some (JStr (Message.content msg)))
                 (ChatRequest.messages request)).
Proof.
  destruct p; simpl; unfold gemini_body, openai_body; simpl;
    rewrite ?gemini_contents_map, ?openai_messages_map, map_map;
    split; reflexivity.
Qed.

(** X13. The search and thinking options reach Gemini only: the Gemini
    body holds [tools] exactly when search is enabled and [thinkingConfig]
    exactly when thoughts are asked for, while the OpenAI requests,
    single-shot and streaming, are the same whatever the two options. *)
Theorem options_reach_gemini_only (request : ChatRequest.t) (search thoughts streaming : bool) :
  field "tools" (gemini_body (with_options search thoughts request))
  = (if search then Some (JArr [JObj [("google_search", JObj [])]]) else None)
  /\ field "thinkingConfig" (gemini_body (with_options search thoughts request))
     = (if thoughts then Some (JObj [("includeThoughts", JBool true)]) else None)
  /\ openai_request config (with_options search thoughts request) streaming
     = openai_request config request streaming.
Proof.
  destruct search, thoughts; repeat split; reflexivity.
Qed.

Lemma model_or_cases (m : option string) (default : string) :
  default <> "" ->
  model_or m default <> ""
  /\ (m = Some (model_or m default)
      \/ (m = None \/ m = Some "") /\ model_or m default = default).
Proof.
  intros Hd. destruct m as [s |]; simpl.
  - destruct (String.eqb s "") eqn:E.
    + apply String.eqb_eq in E. subst s. split; [exact Hd | right; split; auto].
    + apply String.eqb_neq in E. split; [exact E | left; reflexivity].
  - split; [exact Hd | right; split; auto].
Qed.

(** X14. The model named upstream is never empty: it is the request's
    model when that is a non-empty string and the provider's default model
    when the request names none or names the empty string; the Gemini
    requests name it in their URL, the OpenAI requests in their body. *)
Theorem model_fallback (p : provider) (request : ChatRequest.t) :
  wire_model p request <> ""
  /\ (ChatRequest.model request = Some (wire_model p request)
      \/ (ChatRequest.model request = None \/ ChatRequest.model request = Some "")
         /\ wire_model p request = default_model p)
  /\ match p with
     | Gemini =>
       Http.url (call_request config p request)
       = Config.GEMINI_BASE_URL config ++ "/models/" ++ wire_model p request
           ++ ":generateContent?key=" ++ Config.GEMINI_API_KEY config
       /\ Http.url (relay_request config p request)
          = Config.GEMINI_BASE_URL config ++ "/models/" ++ wire_model p request
              ++ ":streamGenerateContent?alt=sse&key=" ++ Config.GEMINI_API_KEY config
     | OpenAI =>
       field "model" (Http.body (call_request config p request))
       = Some (JStr (wire_model p request))
       /\ field "model" (Http.body (relay_request config p request))
          = Some (JStr (wire_model p request))
     end.
Proof.
  assert (Hd : default_model p <> "") by (destruct p; discriminate).
  destruct (model_or_cases (ChatRequest.model request) Hd) as [H1 H2].
  fold (wire_model p request) in H1, H2.
  split; [exact H1 |]. split; [exact H2 |].
  destruct p; split; reflexivity.
Qed.

(** ** One document, streamed or single-shot *)

Lemma concat_app (l1 l2 : list string) :
  String.concat "" (l1 ++ l2)%list = String.concat "" l1 ++ String.concat "" l2.
Proof.
  induction l1 as [| x l1 IH]; [reflexivity |].
  simpl app. rewrite !concat_cons, IH, append_assoc. reflexivity.
Qed.

Lemma gemini_parts_all_shaped (data : json) :
  gemini_shaped data = true -> forallb part_shaped (gemini_parts data) = true.
Proof.
  unfold gemini_shaped, gemini_parts. intros H.
  apply andb_prop in H as [H _]. apply andb_prop in H as [_ H].
  destruct (field "candidates" data) as [[| | | | | [| c l] |] |]; try reflexivity.
  simpl in H. unfold candidate_shaped in H. apply andb_prop in H as [_ H].
  destruct (field "content" c) as [content |]; [| reflexivity].
  simpl in H. unfold content_shaped in H. apply andb_prop in H as [_ H].
  destruct (field "parts" content) as [[] |]; try reflexivity. exact H.
Qed.

Lemma part_events_text (part : json) :
  part_shaped part = true ->
  String.concat "" (map content_text (part_events part))
  = (if part_thought part then "" else part_text part)
  /\ String.concat "" (map thinking_text (part_events part))
     = (if part_thought part then part_text part else "")
  /\ flat_map event_usage (part_events part) = [].
Proof.
  unfold part_shaped, part_events, part_text, field_or. intros H.
  apply andb_prop in H as [_ H].
  destruct (field "text" part) as [[] |]; try discriminate H.
  - destruct s as [| a s]; cbn [Py.truthy String.eqb negb];
      destruct (part_thought part); simpl; rewrite ?append_nil_r; repeat split.
  - destruct (part_thought part); repeat split.
Qed.

Lemma part_events_texts (parts : list json) :
  forallb part_shaped parts = true ->
  String.concat "" (map content_text (flat_map part_events parts))
  = String.concat "" (map part_text (filter (fun p => negb (part_thought p)) parts))
  /\ String.concat "" (map thinking_text (flat_map part_events parts))
     = String.concat "" (map part_text (filter part_thought parts))
  /\ flat_map event_usage (flat_map part_events parts) = [].
Proof.
  induction parts as [| part parts IH]; intros H; [repeat split |].
  simpl in H. apply andb_prop in H as [Hp Hs].
  destruct (IH Hs) as (IH1 & IH2 & IH3). clear IH.
  destruct (part_events_text part Hp) as (P1 & P2 & P3).
  simpl flat_map. simpl filter. rewrite !map_app, !concat_app, flat_map_app.
  rewrite IH1, IH2, IH3, P1, P2, P3.
  destruct (part_thought part); simpl negb; cbv iota; simpl map;
    rewrite ?concat_cons; repeat split.
Qed.

(** X15. A Gemini document of the expected shape reads the same streamed
    as single-shot: the texts of the Content events [stream_gemini] yields
    for it, joined, are the content [call_gemini] returns for it; the
    texts of its Thinking events, joined, are the thinking content (empty
    for none); and its Usage events are the usage, one or none. *)
Theorem gemini_stream_agrees_with_call (data : json) :
  gemini_shaped data = true ->
  exists es r,
    gemini_chunk json_dumps data = (yields json_dumps es, Ok tt)
    /\ gemini_parse data = Ok r
    /\ String.concat "" (map content_text es) = ChatResponse.content r
    /\ String.concat "" (map thinking_text es) = or_empty (ChatResponse.thinking_content r)
    /\ flat_map event_usage es = option_list (ChatResponse.usage r).
Proof.
  intros H. exists (gemini_chunk_events data), (spec_response Gemini data).
  split; [exact (gemini_chunk_shaped json_dumps data H) |].
  split; [exact (parse_shaped Gemini data H) |].
  destruct (part_events_texts (gemini_parts data) (gemini_parts_all_shaped data H))
    as (H1 & H2 & H3).
  unfold gemini_chunk_events. rewrite !map_app, !concat_app, flat_map_app, H1, H2, H3.
  simpl ChatResponse.content. simpl ChatResponse.thinking_content.
  simpl ChatResponse.usage.
  unfold usage_events, spec_content, spec_thinking_content, spec_gemini_usage, spec_usage.
  destruct (field "usageMetadata" data) as [meta |]; simpl map; simpl String.concat;
    rewrite ?append_nil_r; (split; [reflexivity |]); (split; [| reflexivity]).
  all: destruct (existsb part_thought (gemini_parts data)) eqn:E; simpl or_empty;
    [reflexivity | rewrite (filter_none _ _ E); reflexivity].
Qed.
End More.

(** ** The properties at work on the sample documents *)

(** C1, as stated, fails: after the content of the first line and the
    sentinel, the relay yields a done frame; the line after the sentinel
    yields nothing. *)
Lemma done_sentinel_followed_by_done :
  frames (fst (stream_openai Sample.loads Sample.dumps Sample.config
                 (Sample.streams [Sample.data Sample.hi_chunk; done_line;
                                  Sample.data Sample.bye_chunk])
                 (Sample.request "openai")))
  = [frame Sample.dumps (Content (JStr "Hi")); frame Sample.dumps Done]
  /\ is_done_frame (frame Sample.dumps Done) = true.
Proof. split; reflexivity. Qed.

Lemma done_sentinel_stops_reading_witness :
  Http.status_code
    (Sample.streams [] (openai_request Sample.config (Sample.request "openai") true))
  = 200%Z
  /\ ~ In done_line [Sample.data Sample.hi_chunk]
  /\ openai_lines Sample.loads Sample.dumps [Sample.data Sample.hi_chunk]
     = (yields Sample.dumps [Content (JStr "Hi")], Ok [])
  /\ openai_lines Sample.loads Sample.dumps
       ([Sample.data Sample.hi_chunk] ++ done_line :: [Sample.data Sample.bye_chunk])
     = (yields Sample.dumps [Content (JStr "Hi")], Ok [Sample.data Sample.bye_chunk])
  /\ stream_openai Sample.loads Sample.dumps Sample.config
       (fun r => with_lines ([Sample.data Sample.hi_chunk] ++ done_line
                               :: [Sample.data Sample.bye_chunk])
                            (Sample.streams [] r))
       (Sample.request "openai")
     = ((Send (openai_request Sample.config (Sample.request "openai") true)
           :: yields Sample.dumps [Content (JStr "Hi")]
           ++ yields Sample.dumps [Done])%list,
        Ok tt).
Proof.
  assert (H1 : Http.status_code
                 (Sample.streams [] (openai_request Sample.config
                                       (Sample.request "openai") true)) = 200%Z)
    by reflexivity.
  assert (H2 : ~ In done_line [Sample.data Sample.hi_chunk]).
  { simpl. intros [H | []]. discriminate H. }
  assert (H3 : openai_lines Sample.loads Sample.dumps [Sample.data Sample.hi_chunk]
               = (yields Sample.dumps [Content (JStr "Hi")], Ok []))
    by reflexivity.
  split; [exact H1 |]. split; [exact H2 |]. split; [exact H3 |].
  exact (@done_sentinel_stops_reading Sample.loads Sample.dumps Sample.config
           (Sample.streams []) (Sample.request "openai")
           [Sample.data Sample.hi_chunk] [Sample.data Sample.bye_chunk] _ H1 H2 H3).
Defined.

(** C2, as stated, fails for OpenAI: a chunk that reports usage, under
    either key, yields its content and no usage frame. *)
Lemma openai_usage_not_relayed :
  Py.contains "usage" Sample.hi_chunk_with_usage = Ok true
  /\ Py.contains "usageMetadata" Sample.hi_chunk_with_usage = Ok true
  /\ decode_step Sample.dumps OpenAI Sample.hi_chunk_with_usage
     = (yields Sample.dumps [Content (JStr "Hi")], Ok tt)
  /\ existsb is_usage_frame
       (frames (fst (decode_step Sample.dumps OpenAI Sample.hi_chunk_with_usage)))
     = false
  /\ is_usage_frame (frame Sample.dumps (Usage (JInt 3) (JInt 1) (JInt 4))) = true.
Proof. repeat split. Qed.

Lemma decode_step_events_witness :
  shaped Gemini Sample.gemini_chunk = true
  /\ decode_step Sample.dumps Gemini Sample.gemini_chunk
     = (yields Sample.dumps
          [Thinking (JStr "A"); Content (JStr "B"); Usage (JInt 5) (JInt 2) (JInt 7)],
        Ok tt)
  /\ shaped OpenAI Sample.hi_chunk_with_usage = true
  /\ decode_step Sample.dumps OpenAI Sample.hi_chunk_with_usage
     = (yields Sample.dumps [Content (JStr "Hi")], Ok tt).
Proof.
  split; [reflexivity |]. split.
  - exact (proj1 (@decode_step_events Sample.dumps Gemini Sample.gemini_chunk eq_refl)).
  - split; [reflexivity |].
    exact (proj1 (@decode_step_events Sample.dumps OpenAI Sample.hi_chunk_with_usage
                    eq_refl)).
Defined.

Lemma gemini_chunk_order_witness :
  gemini_shaped Sample.gemini_chunk = true
  /\ gemini_chunk Sample.dumps Sample.gemini_chunk
     = (yields Sample.dumps
          [Thinking (JStr "A"); Content (JStr "B"); Usage (JInt 5) (JInt 2) (JInt 7)],
        Ok tt).
Proof.
  split; [reflexivity |].
  exact (proj1 (@gemini_chunk_order Sample.dumps Sample.gemini_chunk) eq_refl).
Defined.

(** C3, as stated, fails: with a 502 status and a body that is not UTF-8,
    either relay sends its request and raises, without any frame. *)
Lemma error_body_not_utf8 :
  Http.status_code (Sample.fails 502 Sample.latin1_body
                      (relay_request Sample.config Gemini (Sample.request "gemini")))
  = 502%Z
  /\ relay Sample.loads Sample.dumps Sample.config
       (Sample.fails 502 Sample.latin1_body) Gemini (Sample.request "gemini")
     = ([Send (relay_request Sample.config Gemini (Sample.request "gemini"))],
        Raise UnicodeDecodeError)
  /\ relay Sample.loads Sample.dumps Sample.config
       (Sample.fails 502 Sample.latin1_body) OpenAI (Sample.request "openai")
     = ([Send (relay_request Sample.config OpenAI (Sample.request "openai"))],
        Raise UnicodeDecodeError).
Proof. repeat split. Qed.

Lemma error_status_single_error_witness :
  Http.status_code (Sample.fails 500 Sample.server_error
                      (relay_request Sample.config OpenAI (Sample.request "openai")))
  <> 200%Z
  /\ Utf8.decode Sample.server_error = Ok "server error"
  /\ relay Sample.loads Sample.dumps Sample.config
       (Sample.fails 500 Sample.server_error) OpenAI (Sample.request "openai")
     = (Send (relay_request Sample.config OpenAI (Sample.request "openai"))
          :: yields Sample.dumps [Error "server error"],
        Ok tt)
  /\ is_done_frame (frame Sample.dumps (Error "server error")) = false.
Proof.
  assert (H1 : Http.status_code
                 (Sample.fails 500 Sample.server_error
                    (relay_request Sample.config OpenAI (Sample.request "openai")))
               <> 200%Z) by (simpl; lia).
  split; [exact H1 |]. split; [reflexivity |].
  exact (@error_status_single_error Sample.loads Sample.dumps Sample.config
           (Sample.fails 500 Sample.server_error) OpenAI (Sample.request "openai")
           "server error" H1 eq_refl).
Defined.

Lemma unsupported_provider_rejected_witness :
  Py.lower "Claude" <> "gemini"
  /\ Py.lower "Claude" <> "openai"
  /\ chat Sample.config (Sample.streams []) (Sample.request "Claude")
     = ([], Raise (HTTPException 400 (unsupported "Claude")))
  /\ chat_stream Sample.loads Sample.dumps Sample.config (Sample.streams [])
       (Sample.request "Claude")
     = (yields Sample.dumps [Error (unsupported "Claude")], Ok tt).
Proof.
  assert (H1 : Py.lower "Claude" <> "gemini") by (simpl; discriminate).
  assert (H2 : Py.lower "Claude" <> "openai") by (simpl; discriminate).
  split; [exact H1 |]. split; [exact H2 |].
  exact (@unsupported_provider_rejected Sample.loads Sample.dumps Sample.config
           (Sample.streams []) (Sample.request "Claude") H1 H2).
Defined.

Lemma missing_credential_rejected_witness :
  configured_key Sample.no_keys (Sample.request "Gemini") = Some ""
  /\ exists detail,
       chat Sample.no_keys (Sample.streams []) (Sample.request "Gemini")
       = ([], Raise (HTTPException 500 detail))
       /\ requests (fst (chat Sample.no_keys (Sample.streams []) (Sample.request "Gemini")))
          = []
       /\ chat_stream Sample.loads Sample.dumps Sample.no_keys (Sample.streams [])
            (Sample.request "Gemini")
          = (yields Sample.dumps [Error detail], Ok tt).
Proof.
  split; [reflexivity |].
  exact (@missing_credential_rejected Sample.loads Sample.dumps Sample.no_keys
           (Sample.streams []) (Sample.request "Gemini") eq_refl).
Defined.

Lemma gemini_parse_single_response_witness :
  gemini_shaped Sample.two_parts = true
  /\ gemini_parse Sample.two_parts
     = Ok {| ChatResponse.content := "B";
             ChatResponse.thinking_content := Some "A";
             ChatResponse.usage := None |}.
Proof.
  split; [reflexivity |].
  exact (proj1 (@gemini_parse_single_response Sample.two_parts eq_refl)).
Defined.

(** C8, as stated, fails: a payload nested too deep fails to decode with
    an exception that the handler of [json.JSONDecodeError] lets through;
    either relay ends at that line, and the valid line after it yields
    nothing, nor does a done frame follow. *)
Lemma deep_payload_ends_relay :
  Py.startswith "data: " Sample.deep_line = true
  /\ Sample.loads (Py.drop 6 Sample.deep_line) = Raise RecursionError
  /\ is_sentinel OpenAI Sample.deep_line = false
  /\ relay Sample.loads Sample.dumps Sample.config
       (Sample.streams [Sample.data Sample.hi_chunk; Sample.deep_line;
                        Sample.data Sample.bye_chunk])
       OpenAI (Sample.request "openai")
     = ([Send (relay_request Sample.config OpenAI (Sample.request "openai"));
         Yield (frame Sample.dumps (Content (JStr "Hi")))],
        Raise RecursionError)
  /\ relay Sample.loads Sample.dumps Sample.config
       (Sample.streams [Sample.data Sample.two_parts; Sample.deep_line;
                        Sample.data Sample.two_parts])
       Gemini (Sample.request "gemini")
     = ([Send (relay_request Sample.config Gemini (Sample.request "gemini"));
         Yield (frame Sample.dumps (Thinking (JStr "A")));
         Yield (frame Sample.dumps (Content (JStr "B")))],
        Raise RecursionError).
Proof. repeat split; vm_compute; reflexivity. Qed.

Lemma malformed_line_skipped_witness :
  Py.startswith "data: " Sample.broken_line = true
  /\ Sample.loads (Py.drop 6 Sample.broken_line) = Raise JSONDecodeError
  /\ is_sentinel OpenAI Sample.broken_line = false
  /\ relay_lines Sample.loads Sample.dumps OpenAI [Sample.broken_line] = ([], Ok tt)
  /\ frames (fst (relay Sample.loads Sample.dumps Sample.config
                    (fun r => with_lines ([Sample.data Sample.hi_chunk] ++ Sample.broken_line
                                            :: [Sample.data Sample.bye_chunk])
                                         (Sample.streams [] r))
                    OpenAI (Sample.request "openai")))
     = [frame Sample.dumps (Content (JStr "Hi"));
        frame Sample.dumps (Content (JStr "Bye"));
        frame Sample.dumps Done]
  /\ relay_lines Sample.loads Sample.dumps Gemini [Sample.broken_line] = ([], Ok tt)
  /\ frames (fst (relay Sample.loads Sample.dumps Sample.config
                    (fun r => with_lines ([Sample.data Sample.two_parts] ++ Sample.broken_line
                                            :: [Sample.data Sample.gemini_chunk])
                                         (Sample.streams [] r))
                    Gemini (Sample.request "gemini")))
     = [frame Sample.dumps (Thinking (JStr "A"));
        frame Sample.dumps (Content (JStr "B"));
        frame Sample.dumps (Thinking (JStr "A"));
        frame Sample.dumps (Content (JStr "B"));
        frame Sample.dumps (Usage (JInt 5) (JInt 2) (JInt 7));
        frame Sample.dumps Done].
Proof.
  split; [reflexivity |]. split; [reflexivity |]. split; [reflexivity |].
  destruct (@malformed_line_skipped Sample.loads Sample.dumps Sample.config
              (Sample.streams []) OpenAI (Sample.request "openai")
              [Sample.data Sample.hi_chunk] Sample.broken_line [Sample.data Sample.bye_chunk]
              eq_refl eq_refl eq_refl) as (H1 & _ & H3).
  destruct (@malformed_line_skipped Sample.loads Sample.dumps Sample.config
              (Sample.streams []) Gemini (Sample.request "gemini")
              [Sample.data Sample.two_parts] Sample.broken_line
              [Sample.data Sample.gemini_chunk]
              eq_refl eq_refl eq_refl) as (G1 & _ & G3).
  split; [exact H1 |]. split; [rewrite H3; reflexivity |].
  split; [exact G1 |]. rewrite G3. reflexivity.
Defined.

Lemma error_frame_verbatim_witness :
  Http.status_code
    (Sample.fails 500 (list_byte_of_string Sample.quoted_message)
       (relay_request Sample.no_keys Gemini (Sample.request "Gemini")))
  <> 200%Z
  /\ Utf8.decode (list_byte_of_string Sample.quoted_message) = Ok Sample.quoted_message
  /\ configured_key Sample.no_keys (Sample.request "Gemini") = Some ""
  /\ any_char needs_escape Sample.quoted_message = true
  /\ frames (fst (relay Sample.loads Sample.dumps Sample.no_keys
                    (Sample.fails 500 (list_byte_of_string Sample.quoted_message))
                    Gemini (Sample.request "Gemini")))
     = ["data: " ++ error_payload Sample.quoted_message ++ nl ++ nl]
  /\ (exists detail,
         frames (fst (chat_stream Sample.loads Sample.dumps Sample.no_keys
                        (Sample.fails 500 (list_byte_of_string Sample.quoted_message))
                        (Sample.request "Gemini")))
         = ["data: " ++ error_payload detail ++ nl ++ nl])
  /\ ~ error_object_text (error_payload Sample.quoted_message) Sample.quoted_message.
Proof.
  assert (H1 : Http.status_code
                 (Sample.fails 500 (list_byte_of_string Sample.quoted_message)
                    (relay_request Sample.no_keys Gemini (Sample.request "Gemini")))
               <> 200%Z) by (simpl; lia).
  destruct (@error_frame_verbatim Sample.loads Sample.dumps Sample.no_keys
              (Sample.fails 500 (list_byte_of_string Sample.quoted_message))
              Gemini (Sample.request "Gemini") Sample.quoted_message)
    as (_ & Hrelay & Hkey & Hjson).
  split; [exact H1 |]. split; [reflexivity |]. split; [reflexivity |].
  split; [reflexivity |].
  split; [exact (Hrelay H1 eq_refl) |]. split; [exact (Hkey eq_refl) |].
  exact (Hjson eq_refl).
Defined.

Lemma end_of_stream_done_witness :
  Http.status_code
    (Sample.streams [Sample.data Sample.gemini_chunk]
       (relay_request Sample.config Gemini (Sample.request "gemini")))
  = 200%Z
  /\ relay_lines Sample.loads Sample.dumps Gemini [Sample.data Sample.gemini_chunk]
     = (yields Sample.dumps
          [Thinking (JStr "A"); Content (JStr "B"); Usage (JInt 5) (JInt 2) (JInt 7)],
        Ok tt)
  /\ relay Sample.loads Sample.dumps Sample.config
       (Sample.streams [Sample.data Sample.gemini_chunk]) Gemini (Sample.request "gemini")
     = ((Send (relay_request Sample.config Gemini (Sample.request "gemini"))
           :: yields Sample.dumps
                [Thinking (JStr "A"); Content (JStr "B"); Usage (JInt 5) (JInt 2) (JInt 7)]
           ++ yields Sample.dumps [Done])%list,
        Ok tt).
Proof.
  split; [reflexivity |]. split; [reflexivity |].
  exact (@end_of_stream_done Sample.loads Sample.dumps Sample.config
           (Sample.streams [Sample.data Sample.gemini_chunk]) Gemini
           (Sample.request "gemini") _ eq_refl eq_refl).
Defined.

Lemma other_line_ignored_witness :
  Py.startswith "data: " ": keep-alive" = false
  /\ relay_lines Sample.loads Sample.dumps Gemini [": keep-alive"] = ([], Ok tt)
  /\ relay Sample.loads Sample.dumps Sample.config
       (fun r => with_lines ([Sample.data Sample.gemini_chunk] ++ ": keep-alive" :: [""])
                            (Sample.streams [] r))
       Gemini (Sample.request "gemini")
     = relay Sample.loads Sample.dumps Sample.config
         (fun r => with_lines ([Sample.data Sample.gemini_chunk] ++ [""])
                              (Sample.streams [] r))
         Gemini (Sample.request "gemini").
Proof.
  split; [reflexivity |].
  exact (@other_line_ignored Sample.loads Sample.dumps Sample.config
           (Sample.streams []) Gemini (Sample.request "gemini")
           [Sample.data Sample.gemini_chunk] ": keep-alive" [""] eq_refl).
Defined.

Lemma error_frame_plain_message_witness :
  all_chars raw_char "server error" = true
  /\ frame Sample.dumps (Error "server error")
     = "data: " ++ error_payload "server error" ++ nl ++ nl
  /\ error_object_text (error_payload "server error") "server error".
Proof.
  split; [reflexivity |].
  exact (@error_frame_plain_message Sample.dumps "server error" eq_refl).
Defined.

(** ** Instances of the further properties *)

Lemma relay_trace_shape_witness :
  serialisable (Sample.request "gemini") = true
  /\ exists es,
       forallb (streamed Gemini) es = true
       /\ match snd (relay Sample.loads Sample.dumps Sample.config
                      (Sample.streams [Sample.data Sample.gemini_chunk])
                      Gemini (Sample.request "gemini")) with
          | Ok _ =>
            fst (relay Sample.loads Sample.dumps Sample.config
                   (Sample.streams [Sample.data Sample.gemini_chunk])
                   Gemini (Sample.request "gemini"))
            = Send (relay_request Sample.config Gemini (Sample.request "gemini"))
                :: yields Sample.dumps (es ++ [Done])
            \/ exists b,
                 fst (relay Sample.loads Sample.dumps Sample.config
                        (Sample.streams [Sample.data Sample.gemini_chunk])
                        Gemini (Sample.request "gemini"))
                 = Send (relay_request Sample.config Gemini (Sample.request "gemini"))
                     :: yields Sample.dumps [Error b]
          | Raise _ =>
            fst (relay Sample.loads Sample.dumps Sample.config
                   (Sample.streams [Sample.data Sample.gemini_chunk])
                   Gemini (Sample.request "gemini"))
            = Send (relay_request Sample.config Gemini (Sample.request "gemini"))
                :: yields Sample.dumps es
          end.
Proof.
  split; [reflexivity |].
  exact (@relay_trace_shape Sample.loads Sample.dumps Sample.config
           (Sample.streams [Sample.data Sample.gemini_chunk])
           Gemini (Sample.request "gemini") eq_refl).
Defined.

Lemma upstream_requests_witness :
  serialisable (Sample.request "OpenAI") = true
  /\ requests (fst (chat Sample.config (Replies.answers 200 "" (Ok Replies.completion))
                     (Sample.request "OpenAI")))
     = [call_request Sample.config OpenAI (Sample.request "OpenAI")]
  /\ requests (fst (chat_stream Sample.loads Sample.dumps Sample.config
                     (Replies.answers 200 "" (Ok Replies.completion))
                     (Sample.request "OpenAI")))
     = [relay_request Sample.config OpenAI (Sample.request "OpenAI")].
Proof.
  split; [reflexivity |].
  exact (proj1 (@upstream_requests Sample.loads Sample.dumps Sample.config
                  (Replies.answers 200 "" (Ok Replies.completion))
                  (Sample.request "OpenAI")) eq_refl).
Defined.

Lemma call_error_status_witness :
  (Http.status_code (Replies.answers 429 "quota exceeded" (Raise JSONDecodeError)
                       (call_request Sample.config OpenAI (Sample.request "openai")))
   =? 200)%Z = false
  /\ call Sample.config (Replies.answers 429 "quota exceeded" (Raise JSONDecodeError))
          OpenAI (Sample.request "openai")
     = ([Send (call_request Sample.config OpenAI (Sample.request "openai"))],
        Raise (HTTPException 429 "quota exceeded")).
Proof.
  split; [reflexivity |].
  apply (@call_error_status Sample.config
           (Replies.answers 429 "quota exceeded" (Raise JSONDecodeError))
           OpenAI (Sample.request "openai")).
  discriminate.
Defined.

Lemma openai_parse_single_response_witness :
  openai_response_shaped Replies.completion = true
  /\ openai_parse Replies.completion
     = Ok {| ChatResponse.content := "Hello!";
             ChatResponse.thinking_content := None;
             ChatResponse.usage := Some (usage_dict (JInt 3) (JInt 1) (JInt 4)) |}.
Proof.
  split; [reflexivity |].
  exact (proj1 (@openai_parse_single_response Replies.completion eq_refl)).
Defined.

Lemma chat_single_shot_witness :
  selected Sample.config (Sample.request "OpenAI") = Some OpenAI
  /\ chat Sample.config (Replies.answers 200 "" (Ok Replies.completion))
          (Sample.request "OpenAI")
     = ([Send (call_request Sample.config OpenAI (Sample.request "OpenAI"))],
        Ok {| ChatResponse.content := "Hello!";
              ChatResponse.thinking_content := None;
              ChatResponse.usage := Some (usage_dict (JInt 3) (JInt 1) (JInt 4)) |}).
Proof.
  split; [reflexivity |].
  exact (@chat_single_shot Sample.config
           (Replies.answers 200 "" (Ok Replies.completion))
           (Sample.request "OpenAI") OpenAI Replies.completion
           eq_refl eq_refl eq_refl eq_refl).
Defined.

Lemma openai_null_content_rejected_witness :
  openai_message_content Replies.tool_call = Some JNull
  /\ call_openai Sample.config (Replies.answers 200 "" (Ok Replies.tool_call))
                 (Sample.request "openai")
     = ([Send (openai_request Sample.config (Sample.request "openai") false)],
        Raise ValidationError).
Proof.
  split; [reflexivity |].
  exact (@openai_null_content_rejected Sample.config
           (Replies.answers 200 "" (Ok Replies.tool_call))
           (Sample.request "openai") Replies.tool_call
           eq_refl eq_refl eq_refl eq_refl).
Defined.

Lemma relay_lines_split_witness :
  existsb (is_sentinel OpenAI) [Sample.data Sample.hi_chunk; ""] = false
  /\ relay_lines Sample.loads Sample.dumps OpenAI
       ([Sample.data Sample.hi_chunk; ""] ++ [done_line; Sample.data Sample.bye_chunk])
     = (relay_lines Sample.loads Sample.dumps OpenAI [Sample.data Sample.hi_chunk; ""] ;;
        relay_lines Sample.loads Sample.dumps OpenAI [done_line; Sample.data Sample.bye_chunk]).
Proof.
  split; [reflexivity |].
  exact (proj1 (@relay_lines_split Sample.loads Sample.dumps OpenAI
                  [Sample.data Sample.hi_chunk; ""]
                  [done_line; Sample.data Sample.bye_chunk] eq_refl)).
Defined.

Lemma gemini_stream_agrees_with_call_witness :
  gemini_shaped Sample.gemini_chunk = true
  /\ exists es r,
       gemini_chunk Sample.dumps Sample.gemini_chunk = (yields Sample.dumps es, Ok tt)
       /\ gemini_parse Sample.gemini_chunk = Ok r
       /\ String.concat "" (map content_text es) = ChatResponse.content r
       /\ String.concat "" (map thinking_text es)
          = or_empty (ChatResponse.thinking_content r)
       /\ flat_map event_usage es = option_list (ChatResponse.usage r).
Proof.
  split; [reflexivity |].
  exact (@gemini_stream_agrees_with_call Sample.dumps Sample.gemini_chunk eq_refl).
Defined.
